(** * MarketGameDev: the yearly electricity-market game API

    A shallow embedding of [src/market_game_api.py] and of the sample-data
    path of [src/startup.py].

    Conventions of the embedding.
    - Python [int] is [Z]; Python [float] is an exact rational [Q]
      (rounding is abstracted away, equalities on floats are [Qeq]).
    - The SQLAlchemy session is an explicit store [DB]; every endpoint is a
      function [DB -> outcome A] that either returns a response together
      with the committed store or raises a Python exception, in which case
      nothing has been committed.
    - Tables looked up by primary key are [gmap]s keyed by the [id] column;
      tables filtered on other columns are lists in insertion order, and
      [.first()] is [find].
    - [uuid.uuid4()] and [datetime.now()] are arguments of the endpoint that
      uses them. *)

From Stdlib Require Import ZArith QArith Qpower Qminmax Lia Lqa Bool Ascii.
From stdpp Require Import gmap strings list fin_maps sorting.

Local Open Scope Z_scope.

(** ** Enumerations *)

Inductive UserTypeEnum := operator | utility.

Inductive PlantTypeEnum :=
  | coal | natural_gas_cc | natural_gas_ct | nuclear | solar
  | wind_onshore | wind_offshore | battery | hydro | biomass.

Inductive PlantStatusEnum :=
  | operating | under_construction | maintenance | retired | planned.

Inductive LoadPeriodEnum := off_peak | shoulder | peak.

Inductive GameStateEnum :=
  | setup | year_planning | bidding_open | market_clearing
  | year_complete | game_complete.

#[global] Instance GameStateEnum_eq_dec : EqDecision GameStateEnum.
Proof. solve_decision. Defined.

#[global] Instance PlantStatusEnum_eq_dec : EqDecision PlantStatusEnum.
Proof. solve_decision. Defined.

#[global] Instance PlantTypeEnum_eq_dec : EqDecision PlantTypeEnum.
Proof. solve_decision. Defined.

(** [GameStateEnum(new_state)]: the enumeration looked up by value. *)
Definition GameStateEnum_of_value (v : string) : option GameStateEnum :=
  if decide (v = "setup") then Some setup
  else if decide (v = "year_planning") then Some year_planning
  else if decide (v = "bidding_open") then Some bidding_open
  else if decide (v = "market_clearing") then Some market_clearing
  else if decide (v = "year_complete") then Some year_complete
  else if decide (v = "game_complete") then Some game_complete
  else None.

Definition GameStateEnum_value (s : GameStateEnum) : string :=
  match s with
  | setup => "setup"
  | year_planning => "year_planning"
  | bidding_open => "bidding_open"
  | market_clearing => "market_clearing"
  | year_complete => "year_complete"
  | game_complete => "game_complete"
  end.

(** [PlantType(plant.plant_type)]; [PlantTypeEnum] and the backend's
    [PlantType] have the same ten values. *)
Definition PlantTypeEnum_of_value (v : string) : option PlantTypeEnum :=
  if decide (v = "coal") then Some coal
  else if decide (v = "natural_gas_cc") then Some natural_gas_cc
  else if decide (v = "natural_gas_ct") then Some natural_gas_ct
  else if decide (v = "nuclear") then Some nuclear
  else if decide (v = "solar") then Some solar
  else if decide (v = "wind_onshore") then Some wind_onshore
  else if decide (v = "wind_offshore") then Some wind_offshore
  else if decide (v = "battery") then Some battery
  else if decide (v = "hydro") then Some hydro
  else if decide (v = "biomass") then Some biomass
  else None.

(** ** Database rows *)

Record DBUser := {
  user_id : string;
  username : string;
  user_type : UserTypeEnum;
  budget : Q;
  debt : Q;
  equity : Q
}.

(** The JSON object stored in [DBGameSession.demand_profile]. *)
Record DemandData := {
  dd_off_peak_hours : Q;
  dd_shoulder_hours : Q;
  dd_peak_hours : Q;
  dd_off_peak_demand : Q;
  dd_shoulder_demand : Q;
  dd_peak_demand : Q;
  dd_demand_growth_rate : Q
}.

Record DBGameSession := {
  session_id_of : string;
  session_name : string;
  operator_id : string;
  current_year : Z;
  start_year : Z;
  end_year : Z;
  state : GameStateEnum;
  demand_profile : DemandData;
  carbon_price_per_ton : Q;
  discount_rate : Q;
  inflation_rate : Q;
  (* JSON: year -> fuel -> price per MMBtu; the keys are the decimal
     strings of the years, modelled by the years themselves *)
  fuel_prices : gmap Z (gmap string Q)
}.

Record DBPowerPlant := {
  plant_id_of : string;
  plant_utility_id : string;
  plant_game_session_id : string;
  plant_name : string;
  plant_type : PlantTypeEnum;
  capacity_mw : Q;
  construction_start_year : Z;
  commissioning_year : Z;
  retirement_year : Z;
  status : PlantStatusEnum;
  capital_cost_total : Q;
  fixed_om_annual : Q;
  variable_om_per_mwh : Q;
  capacity_factor : Q;
  heat_rate : option Q;
  fuel_type : option string;
  min_generation_mw : Q;
  maintenance_years : list Z
}.

Record DBYearlyBid := {
  bid_id : string;
  bid_utility_id : string;
  bid_game_session_id : string;
  bid_plant_id : string;
  bid_year : Z;
  off_peak_quantity : Q;
  shoulder_quantity : Q;
  peak_quantity : Q;
  off_peak_price : Q;
  shoulder_price : Q;
  peak_price : Q;
  bid_timestamp : Z
}.

Record DB := {
  users : gmap string DBUser;
  game_sessions : gmap string DBGameSession;
  power_plants : list DBPowerPlant;
  yearly_bids : list DBYearlyBid
}.

(** ** Exceptions and outcomes *)

Inductive exn :=
  | HTTPException (status_code : Z) (detail : string)
  | ValueError
  | AttributeError
  | KeyError
  | ZeroDivisionError.

Inductive outcome (A : Type) :=
  | Returned (a : A) (db : DB)
  | Raised (e : exn).
Arguments Returned {A} a db.
Arguments Raised {A} e.


(** ** Game session management *)

Definition with_game_sessions (g : gmap string DBGameSession) (db : DB) : DB :=
  {| users := users db; game_sessions := g;
     power_plants := power_plants db; yearly_bids := yearly_bids db |}.

Definition with_state (st : GameStateEnum) (s : DBGameSession) : DBGameSession :=
  {| session_id_of := session_id_of s; session_name := session_name s;
     operator_id := operator_id s;
     current_year := current_year s; start_year := start_year s;
     end_year := end_year s; state := st;
     demand_profile := demand_profile s;
     carbon_price_per_ton := carbon_price_per_ton s;
     discount_rate := discount_rate s; inflation_rate := inflation_rate s;
     fuel_prices := fuel_prices s |}.

Definition with_current_year (y : Z) (s : DBGameSession) : DBGameSession :=
  {| session_id_of := session_id_of s; session_name := session_name s;
     operator_id := operator_id s;
     current_year := y; start_year := start_year s;
     end_year := end_year s; state := state s;
     demand_profile := demand_profile s;
     carbon_price_per_ton := carbon_price_per_ton s;
     discount_rate := discount_rate s; inflation_rate := inflation_rate s;
     fuel_prices := fuel_prices s |}.

(** The mutation [advance_year] performs on the session row. *)
Definition advance_session (s : DBGameSession) : DBGameSession :=
  if current_year s >=? end_year s
  then with_state game_complete s
  else with_state year_planning (with_current_year (current_year s + 1) s).

Record AdvanceYearResponse := {
  ay_message : string;
  ay_current_year : Z;
  ay_state : string
}.

Definition advance_year (session_id : string) (db : DB)
  : outcome AdvanceYearResponse :=
  match game_sessions db !! session_id with
  | None => Raised (HTTPException 404 "Game session not found")
  | Some session =>
      let session' := advance_session session in
      Returned {| ay_message := "Year advanced";
                  ay_current_year := current_year session';
                  ay_state := GameStateEnum_value (state session') |}
               (with_game_sessions
                  (<[session_id := session']> (game_sessions db)) db)
  end.

Definition update_game_state (session_id new_state : string) (db : DB)
  : outcome (string * string) :=
  match game_sessions db !! session_id with
  | None => Raised (HTTPException 404 "Game session not found")
  | Some session =>
      match GameStateEnum_of_value new_state with
      | None => Raised (HTTPException 400 ("Invalid game state: " +:+ new_state))
      | Some st =>
          Returned ("Game state updated", new_state)
                   (with_game_sessions
                      (<[session_id := with_state st session]> (game_sessions db)) db)
      end
  end.

(** ** Floating-point power

    [b ** e] for a float [b] and an int [e]: Python raises
    [ZeroDivisionError] when [b] is zero and [e] negative. *)
Definition float_pow (b : Q) (e : Z) : option Q :=
  if Qeq_bool b 0 && (e <? 0) then None else Some (b ^ e)%Q.

(** ** The backend module

    [electricity_market_backend] is imported by both source files but is
    not part of them; what they use of it is taken as a parameter. *)

Record PlantTemplate := {
  template_name : string;
  overnight_cost_per_kw : Q;
  construction_time_years : Z;
  economic_life_years : Z;
  capacity_factor_base : Q;
  template_heat_rate : option Q;
  template_fuel_type : option string;
  fixed_om_per_kw_year : Q;
  template_variable_om_per_mwh : Q;
  co2_emissions_tons_per_mwh : Q;
  min_generation_pct : Q
}.

(** Modelled from the spec: the backend's [AnnualDemandProfile] class is
    missing from the sources.  The callers construct it with the keyword
    [year] alone and read the seven fields they store; the spec calls
    [year] the profile's base year. *)
Record AnnualDemandProfile := {
  profile_year : Z;
  profile_data : DemandData
}.

Section Api.

Variable PLANT_TEMPLATES : PlantTypeEnum -> PlantTemplate.
Variable DEFAULT_FUEL_PRICES : gmap Z (gmap string Q).
Variable profile_defaults : DemandData.
(* [PowerPlant.calculate_marginal_cost(fuel_prices, carbon_price)] *)
Variable calculate_marginal_cost : DBPowerPlant -> gmap string Q -> Q -> Q.

Definition new_AnnualDemandProfile (year : Z) : AnnualDemandProfile :=
  {| profile_year := year; profile_data := profile_defaults |}.



(** ** Power plants *)

Record PowerPlantCreate := {
  ppc_name : string;
  ppc_plant_type : string;
  ppc_capacity_mw : Q;
  ppc_construction_start_year : Z;
  ppc_commissioning_year : Z;
  ppc_retirement_year : Z
}.

(** The three postings [create_power_plant] makes on the utility's row. *)
Definition finance_plant (total_capital_cost : Q) (u : DBUser) : DBUser :=
  {| user_id := user_id u; username := username u; user_type := user_type u;
     budget := budget u - total_capital_cost;
     debt := debt u + total_capital_cost * 0.7;
     equity := equity u - total_capital_cost * 0.3 |}%Q.

Definition create_power_plant (new_id session_id : string)
    (plant : PowerPlantCreate) (utility_id : string) (db : DB)
  : outcome DBPowerPlant :=
  match PlantTypeEnum_of_value (ppc_plant_type plant) with
  | None =>
      Raised (HTTPException 400 ("Invalid plant type: " +:+ ppc_plant_type plant))
  | Some plant_type_enum =>
      let template := PLANT_TEMPLATES plant_type_enum in
      let capacity_kw := (ppc_capacity_mw plant * 1000)%Q in
      let total_capital_cost := (capacity_kw * overnight_cost_per_kw template)%Q in
      let annual_fixed_om := (capacity_kw * fixed_om_per_kw_year template)%Q in
      let current_year := 2025 in
      let status :=
        if ppc_commissioning_year plant <=? current_year
        then operating else under_construction in
      let db_plant :=
        {| plant_id_of := new_id;
           plant_utility_id := utility_id;
           plant_game_session_id := session_id;
           plant_name := ppc_name plant;
           plant_type := plant_type_enum;
           capacity_mw := ppc_capacity_mw plant;
           construction_start_year := ppc_construction_start_year plant;
           commissioning_year := ppc_commissioning_year plant;
           retirement_year := ppc_retirement_year plant;
           status := status;
           capital_cost_total := total_capital_cost;
           fixed_om_annual := annual_fixed_om;
           variable_om_per_mwh := template_variable_om_per_mwh template;
           capacity_factor := capacity_factor_base template;
           heat_rate := template_heat_rate template;
           fuel_type := template_fuel_type template;
           min_generation_mw :=
             (ppc_capacity_mw plant * min_generation_pct template)%Q;
           maintenance_years := [] |} in
      let users' :=
        match users db !! utility_id with
        | Some utility_row =>
            <[utility_id := finance_plant total_capital_cost utility_row]> (users db)
        | None => users db
        end in
      Returned db_plant
        {| users := users';
           game_sessions := game_sessions db;
           power_plants := power_plants db ++ [db_plant];
           yearly_bids := yearly_bids db |}
  end.

Record PlantEconomics := {
  pe_plant_id : string;
  pe_year : Z;
  pe_year_fuel_prices : gmap string Q;
  pe_marginal_cost_per_mwh : Q;
  pe_annual_fixed_costs : Q;
  pe_annual_variable_costs : Q;
  pe_annual_total_costs : Q;
  pe_annual_generation_mwh : Q;
  pe_capacity_factor : Q;
  pe_fuel_costs : Q
}.

(** [fuel_prices_data.get(str(year), fuel_prices_data.get("2025", {}))] *)
Definition economics_fuel_prices (fuel_prices_data : gmap Z (gmap string Q))
    (year : Z) : gmap string Q :=
  default (default ∅ (fuel_prices_data !! 2025)) (fuel_prices_data !! year).

(** [session] is not tested before [session.fuel_prices] is read: a
    missing session raises [AttributeError]. *)
Definition get_plant_economics (session_id plant_id : string) (year : Z)
    (db : DB) : outcome PlantEconomics :=
  match find (fun p => bool_decide (plant_id_of p = plant_id)
                     && bool_decide (plant_game_session_id p = session_id))
             (power_plants db) with
  | None => Raised (HTTPException 404 "Plant not found")
  | Some plant =>
      match game_sessions db !! session_id with
      | None => Raised AttributeError
      | Some session =>
          let year_fuel_prices :=
            economics_fuel_prices (fuel_prices session) year in
          let marginal_cost :=
            calculate_marginal_cost plant year_fuel_prices
              (carbon_price_per_ton session) in
          let annual_generation_mwh :=
            (capacity_mw plant * capacity_factor plant * 8760)%Q in
          let annual_variable_costs := (annual_generation_mwh * marginal_cost)%Q in
          let annual_total_costs :=
            (fixed_om_annual plant + annual_variable_costs)%Q in
          Returned
            {| pe_plant_id := plant_id;
               pe_year := year;
               pe_year_fuel_prices := year_fuel_prices;
               pe_marginal_cost_per_mwh := marginal_cost;
               pe_annual_fixed_costs := fixed_om_annual plant;
               pe_annual_variable_costs := annual_variable_costs;
               pe_annual_total_costs := annual_total_costs;
               pe_annual_generation_mwh := annual_generation_mwh;
               pe_capacity_factor := capacity_factor plant;
               pe_fuel_costs :=
                 match fuel_type plant with
                 | Some f =>
                     if bool_decide (f = "") then 0%Q
                     else default 0%Q (year_fuel_prices !! f)
                 | None => 0%Q
                 end |}
            db
      end
  end.

(** ** Bidding *)

Record YearlyBidCreate := {
  ybc_plant_id : string;
  ybc_year : Z;
  ybc_off_peak_quantity : Q;
  ybc_shoulder_quantity : Q;
  ybc_peak_quantity : Q;
  ybc_off_peak_price : Q;
  ybc_shoulder_price : Q;
  ybc_peak_price : Q
}.

Definition with_yearly_bids (bs : list DBYearlyBid) (db : DB) : DB :=
  {| users := users db; game_sessions := game_sessions db;
     power_plants := power_plants db; yearly_bids := bs |}.

(** The filter of the plant query of [submit_yearly_bid]. *)
Definition plant_of_utility (session_id utility_id plant_id : string)
    (p : DBPowerPlant) : bool :=
  bool_decide (plant_id_of p = plant_id)
  && bool_decide (plant_utility_id p = utility_id)
  && bool_decide (plant_game_session_id p = session_id).

(** The filter of the existing-bid query of [submit_yearly_bid]. *)
Definition bid_for (session_id plant_id : string) (year : Z)
    (b : DBYearlyBid) : bool :=
  bool_decide (bid_plant_id b = plant_id)
  && bool_decide (bid_year b = year)
  && bool_decide (bid_game_session_id b = session_id).

(** The assignments to [existing_bid]. *)
Definition overwrite_bid (bid : YearlyBidCreate) (now : Z)
    (existing_bid : DBYearlyBid) : DBYearlyBid :=
  {| bid_id := bid_id existing_bid;
     bid_utility_id := bid_utility_id existing_bid;
     bid_game_session_id := bid_game_session_id existing_bid;
     bid_plant_id := bid_plant_id existing_bid;
     bid_year := bid_year existing_bid;
     off_peak_quantity := ybc_off_peak_quantity bid;
     shoulder_quantity := ybc_shoulder_quantity bid;
     peak_quantity := ybc_peak_quantity bid;
     off_peak_price := ybc_off_peak_price bid;
     shoulder_price := ybc_shoulder_price bid;
     peak_price := ybc_peak_price bid;
     bid_timestamp := now |}.

(** The row returned by [.first()] is mutated in place: the first row that
    satisfies the filter is rewritten, the others are untouched. *)
Fixpoint update_first {A} (P : A -> bool) (f : A -> A) (l : list A) : list A :=
  match l with
  | [] => []
  | x :: l' => if P x then f x :: l' else x :: update_first P f l'
  end.

Definition submit_yearly_bid (new_id : string) (now : Z) (session_id : string)
    (bid : YearlyBidCreate) (utility_id : string) (db : DB)
  : outcome DBYearlyBid :=
  match find (plant_of_utility session_id utility_id (ybc_plant_id bid))
             (power_plants db) with
  | None =>
      Raised (HTTPException 404 "Plant not found or not owned by utility")
  | Some plant =>
      let existing := bid_for session_id (ybc_plant_id bid) (ybc_year bid) in
      match find existing (yearly_bids db) with
      | Some existing_bid =>
          Returned (overwrite_bid bid now existing_bid)
            (with_yearly_bids
               (update_first existing (overwrite_bid bid now) (yearly_bids db)) db)
      | None =>
          let db_bid :=
            {| bid_id := new_id;
               bid_utility_id := utility_id;
               bid_game_session_id := session_id;
               bid_plant_id := ybc_plant_id bid;
               bid_year := ybc_year bid;
               off_peak_quantity := ybc_off_peak_quantity bid;
               shoulder_quantity := ybc_shoulder_quantity bid;
               peak_quantity := ybc_peak_quantity bid;
               off_peak_price := ybc_off_peak_price bid;
               shoulder_price := ybc_shoulder_price bid;
               peak_price := ybc_peak_price bid;
               bid_timestamp := now |} in
          Returned db_bid (with_yearly_bids (yearly_bids db ++ [db_bid]) db)
      end
  end.

(** [get_yearly_bids]: [if year:] and [if utility_id:] skip the filter for
    a missing, zero or empty argument. *)
Definition get_yearly_bids (session_id : string) (year : option Z)
    (utility_id : option string) (db : DB) : list DBYearlyBid :=
  let q0 := filter (fun b => bid_game_session_id b = session_id) (yearly_bids db) in
  let q1 :=
    match year with
    | Some y => if y =? 0 then q0 else filter (fun b => bid_year b = y) q0
    | None => q0
    end in
  match utility_id with
  | Some u =>
      if bool_decide (u = "") then q1
      else filter (fun b => bid_utility_id b = u) q1
  | None => q1
  end.

(** ** Fuel prices *)

Record FuelPricesResponse := {
  fp_year : Z;
  fp_fuel_prices : gmap string Q;
  fp_units : string
}.

(** [max(int(y) for y in fuel_prices_data.keys())]; [None] stands for the
    [ValueError] of [max] on an empty sequence. *)
Definition max_year (years : list Z) : option Z :=
  match years with
  | [] => None
  | y :: ys => Some (foldl Z.max y ys)
  end.

Definition latest_known_year (fuel_prices_data : gmap Z (gmap string Q))
  : option Z :=
  max_year (elements (dom fuel_prices_data)).

(** [not year_prices]: the key is missing, or its price table is empty. *)
Definition no_prices (year_prices : option (gmap string Q)) : bool :=
  match year_prices with
  | None => true
  | Some m => (size m =? 0)%nat
  end.

Definition get_fuel_prices (session_id : string) (year : Z) (db : DB)
  : outcome FuelPricesResponse :=
  match game_sessions db !! session_id with
  | None => Raised (HTTPException 404 "Game session not found")
  | Some session =>
      let fuel_prices_data := fuel_prices session in
      let year_prices := fuel_prices_data !! year in
      if no_prices year_prices then
        match latest_known_year fuel_prices_data with
        | None => Raised ValueError
        | Some latest_year =>
            match fuel_prices_data !! latest_year with
            | None => Raised KeyError
            | Some latest_prices =>
                let years_diff := year - latest_year in
                match float_pow 1.02 years_diff with
                | None => Raised ZeroDivisionError
                | Some growth_factor =>
                    Returned
                      {| fp_year := year;
                         fp_fuel_prices :=
                           (fun price => price * growth_factor)%Q <$> latest_prices;
                         fp_units := "$/MMBtu" |}
                      db
                end
            end
        end
      else
        Returned {| fp_year := year;
                    fp_fuel_prices := default ∅ year_prices;
                    fp_units := "$/MMBtu" |}
                 db
  end.

(** ** Dashboard *)

Record CurrentDemands := {
  cd_off_peak : Q;
  cd_shoulder : Q;
  cd_peak : Q
}.

(** [sum(...)] of floats: left to right from 0. *)
Definition float_sum (l : list Q) : Q := foldl Qplus 0%Q l.

(** The fields of the dashboard computed from the session row and the
    plant table; [recent_results] reads the market-result table, which no
    endpoint of this file writes, and is left out. *)
Record Dashboard := {
  dash_current_year : Z;
  dash_start_year : Z;
  dash_end_year : Z;
  dash_state : string;
  dash_years_remaining : Z;
  dash_current_demand_mw : CurrentDemands;
  dash_total_plants : nat;
  dash_operating_plants : nat;
  dash_total_capacity_mw : Q;
  dash_capacity_margin : Q;
  dash_total_utilities : nat;
  dash_carbon_price : Q
}.

Definition get_game_dashboard (session_id : string) (db : DB)
  : outcome Dashboard :=
  match game_sessions db !! session_id with
  | None => Raised (HTTPException 404 "Game session not found")
  | Some session =>
      let demand_data := demand_profile session in
      let current_year_offset := current_year session - start_year session in
      match float_pow (1 + dd_demand_growth_rate demand_data) current_year_offset with
      | None => Raised ZeroDivisionError
      | Some growth_factor =>
          let current_demands :=
            {| cd_off_peak := dd_off_peak_demand demand_data * growth_factor;
               cd_shoulder := dd_shoulder_demand demand_data * growth_factor;
               cd_peak := dd_peak_demand demand_data * growth_factor |}%Q in
          let session_plants :=
            filter (fun p => plant_game_session_id p = session_id)
                   (power_plants db) in
          let operating_plants :=
            filter (fun p => status p = operating) session_plants in
          let total_capacity_mw := float_sum (capacity_mw <$> operating_plants) in
          let unique_utilities : gset string :=
            list_to_set (plant_utility_id <$> session_plants) in
          Returned
            {| dash_current_year := current_year session;
               dash_start_year := start_year session;
               dash_end_year := end_year session;
               dash_state := GameStateEnum_value (state session);
               dash_years_remaining := end_year session - current_year session;
               dash_current_demand_mw := current_demands;
               dash_total_plants := length session_plants;
               dash_operating_plants := length operating_plants;
               dash_total_capacity_mw := total_capacity_mw;
               dash_capacity_margin :=
                 (if Qlt_le_dec 0 (cd_peak current_demands)
                  then (total_capacity_mw - cd_peak current_demands)
                       / cd_peak current_demands * 100
                  else 0)%Q;
               dash_total_utilities := size unique_utilities;
               dash_carbon_price := carbon_price_per_ton session |}
            db
      end
  end.

(** ** Sample data ([startup.py])

    [create_sample_data] commits four times: the users, the session, the
    plants, the utilities' finances.  A row whose primary key (or unique
    username) is taken makes the commit raise; the [except] clause rolls
    back to the last commit and the function returns [None]. *)

Definition lower_ascii (c : Ascii.ascii) : Ascii.ascii :=
  let n := Ascii.nat_of_ascii c in
  if (65 <=? n)%nat && (n <=? 90)%nat then Ascii.ascii_of_nat (n + 32) else c.

Fixpoint map_string (f : Ascii.ascii -> Ascii.ascii) (s : string) : string :=
  match s with
  | EmptyString => EmptyString
  | String c s' => String (f c) (map_string f s')
  end.

(** [f"plant_{name.replace(' ', '_').lower()}"] *)
Definition sample_plant_id (name : string) : string :=
  "plant_" +:+
  map_string lower_ascii
    (map_string (fun c => if Ascii.eqb c " " then "_"%char else c) name).

Definition sample_plants : list (string * string * PlantTypeEnum * Q * Z * Z * Z) :=
  [ ("utility_1", "Riverside Coal Plant", coal, 600%Q, 2020, 2023, 2050);
    ("utility_1", "Westside Gas CC", natural_gas_cc, 400%Q, 2021, 2024, 2049);
    ("utility_1", "Peak Gas CT", natural_gas_ct, 150%Q, 2022, 2025, 2045);
    ("utility_2", "Coastal Nuclear", nuclear, 1000%Q, 2018, 2025, 2075);
    ("utility_2", "Solar Farm Alpha", solar, 250%Q, 2023, 2025, 2045);
    ("utility_2", "Wind Farm Beta", wind_onshore, 200%Q, 2023, 2025, 2045);
    ("utility_3", "Mega Solar Project", solar, 400%Q, 2024, 2026, 2046);
    ("utility_3", "Offshore Wind", wind_offshore, 300%Q, 2024, 2027, 2047);
    ("utility_3", "Grid Battery Storage", battery, 100%Q, 2025, 2026, 2036) ].

(** The body of the loop over [sample_plants]. *)
Definition sample_plant (row : string * string * PlantTypeEnum * Q * Z * Z * Z)
  : DBPowerPlant :=
  let '(utility_id, name, plant_type, capacity, start_year, commission_year,
        retire_year) := row in
  let template := PLANT_TEMPLATES plant_type in
  let capacity_kw := (capacity * 1000)%Q in
  let status :=
    if commission_year <=? 2025 then operating else under_construction in
  {| plant_id_of := sample_plant_id name;
     plant_utility_id := utility_id;
     plant_game_session_id := "sample_game_1";
     plant_name := name;
     plant_type := plant_type;
     capacity_mw := capacity;
     construction_start_year := start_year;
     commissioning_year := commission_year;
     retirement_year := retire_year;
     status := status;
     capital_cost_total := (capacity_kw * overnight_cost_per_kw template)%Q;
     fixed_om_annual := (capacity_kw * fixed_om_per_kw_year template)%Q;
     variable_om_per_mwh := template_variable_om_per_mwh template;
     capacity_factor := capacity_factor_base template;
     heat_rate := template_heat_rate template;
     fuel_type := template_fuel_type template;
     min_generation_mw := (capacity * min_generation_pct template)%Q;
     maintenance_years := [] |}.

(** [sum(plant.capital_cost_total for plant in plants)] over the utility's
    plants of the sample game. *)
Definition total_invested (utility_id : string) (plants : list DBPowerPlant) : Q :=
  float_sum
    (capital_cost_total <$>
       filter (fun p => plant_utility_id p = utility_id
                      /\ plant_game_session_id p = "sample_game_1") plants).

(** "Update financial position (70% debt, 30% equity financing)". *)
Definition finance_existing (total_invested : Q) (u : DBUser) : DBUser :=
  {| user_id := user_id u; username := username u; user_type := user_type u;
     debt := total_invested * 0.7;
     budget := budget u - (total_invested * 0.3);
     equity := equity u - (total_invested * 0.3) |}%Q.

Definition update_utility_finances (db : DB) : DB :=
  {| users :=
       (fun u => match user_type u with
                 | utility =>
                     finance_existing (total_invested (user_id u) (power_plants db)) u
                 | operator => u
                 end) <$> users db;
     game_sessions := game_sessions db;
     power_plants := power_plants db;
     yearly_bids := yearly_bids db |}.

(** [db.add(row)] on the user table; [None] when the flush would fail. *)
Definition add_user (u : DBUser) (us : gmap string DBUser)
  : option (gmap string DBUser) :=
  match us !! user_id u with
  | Some _ => None
  | None =>
      if existsb (fun kv => bool_decide (username kv.2 = username u))
                 (map_to_list us)
      then None else Some (<[user_id u := u]> us)
  end.

Definition add_plant (p : DBPowerPlant) (ps : list DBPowerPlant)
  : option (list DBPowerPlant) :=
  if existsb (fun p' => bool_decide (plant_id_of p' = plant_id_of p)) ps
  then None else Some (ps ++ [p]).

Definition sample_user (id : string) (ty : UserTypeEnum) (name : string)
    (funds : Q) : DBUser :=
  {| user_id := id; username := name; user_type := ty;
     budget := funds; debt := 0; equity := funds |}.

Definition utility_budgets : list Q := [2000000000; 1500000000; 1800000000]%Q.

Definition sample_session : DBGameSession :=
  let demand_profile := new_AnnualDemandProfile 2025 in
  {| session_id_of := "sample_game_1";
     session_name := "Advanced Electricity Market Simulation 2025-2035";
     operator_id := "operator_1";
     start_year := 2025;
     end_year := 2035;
     current_year := 2025;
     state := setup;
     carbon_price_per_ton := 50.0;
     discount_rate := 0.08;
     inflation_rate := 0.025;
     demand_profile := profile_data demand_profile;
     fuel_prices := DEFAULT_FUEL_PRICES |}.

Definition PlantTypeEnum_value (t : PlantTypeEnum) : string :=
  match t with
  | coal => "coal"
  | natural_gas_cc => "natural_gas_cc"
  | natural_gas_ct => "natural_gas_ct"
  | nuclear => "nuclear"
  | solar => "solar"
  | wind_onshore => "wind_onshore"
  | wind_offshore => "wind_offshore"
  | battery => "battery"
  | hydro => "hydro"
  | biomass => "biomass"
  end.

(** The dictionary returned; the last three keys are missing when the
    sample data existed already.  [technologies] is the list of a set, in
    no specified order. *)
Record SampleData := {
  sd_game_session_id : string;
  sd_operator_id : string;
  sd_utility_ids : list string;
  sd_simulation_period : option string;
  sd_total_capacity_mw : option Q;
  sd_technologies : option (gset string)
}.

Definition create_sample_data (db : DB) : option SampleData * DB :=
  let ids := ["utility_1"; "utility_2"; "utility_3"] in
  match users db !! "operator_1" with
  | Some existing_operator =>
      (Some {| sd_game_session_id := "sample_game_1";
               sd_operator_id := "operator_1";
               sd_utility_ids := ids;
               sd_simulation_period := None;
               sd_total_capacity_mw := None;
               sd_technologies := None |}, db)
  | None =>
      let new_users :=
        foldl (fun acc '(id, funds) =>
                 us ← acc; add_user (sample_user id utility id funds) us)
              (add_user (sample_user "operator_1" operator "instructor" 10000000000)
                        (users db))
              (zip ids utility_budgets) in
      match new_users with
      | None => (None, db)
      | Some us =>
          let db1 := {| users := us; game_sessions := game_sessions db;
                        power_plants := power_plants db;
                        yearly_bids := yearly_bids db |} in
          match game_sessions db1 !! "sample_game_1" with
          | Some _ => (None, db1)
          | None =>
              let db2 :=
                with_game_sessions
                  (<["sample_game_1" := sample_session]> (game_sessions db1)) db1 in
              match foldl (fun acc row => ps ← acc; add_plant (sample_plant row) ps)
                          (Some (power_plants db2)) sample_plants with
              | None => (None, db2)
              | Some ps =>
                  let db3 := {| users := users db2;
                                game_sessions := game_sessions db2;
                                power_plants := ps;
                                yearly_bids := yearly_bids db2 |} in
                  (Some {| sd_game_session_id := "sample_game_1";
                           sd_operator_id := "operator_1";
                           sd_utility_ids := ids;
                           sd_simulation_period := Some "2025-2035";
                           sd_total_capacity_mw :=
                             Some (float_sum ((fun r => r.1.1.1.2) <$> sample_plants));
                           sd_technologies :=
                             Some (list_to_set
                                     ((fun r => PlantTypeEnum_value r.1.1.1.1.2)
                                        <$> sample_plants)) |},
                   update_utility_finances db3)
              end
          end
      end
  end.

End Api.

(** ** Market clearing engine

    The engine lives in the orchestrator and the backend module, which the
    sources import but do not contain. *)

Module Clearing.

(** Modelled from the spec: the offers of the clearing engine, which is
    missing from the sources; one offer per bid and period, the bid's
    quantity/price pair. *)
Record Offer := {
  offer_bid_id : string;
  offer_plant_id : string;
  offer_quantity : Q;
  offer_price : Q
}.

Definition offer_of (period : LoadPeriodEnum) (b : DBYearlyBid) : Offer :=
  {| offer_bid_id := bid_id b;
     offer_plant_id := bid_plant_id b;
     offer_quantity :=
       match period with
       | off_peak => off_peak_quantity b
       | shoulder => shoulder_quantity b
       | peak => peak_quantity b
       end;
     offer_price :=
       match period with
       | off_peak => off_peak_price b
       | shoulder => shoulder_price b
       | peak => peak_price b
       end |}.

(** Modelled from the spec: the eligible bids of the missing engine, the
    bids of a (session, year) whose plant is [operating], expanded into
    the offers of a period. *)
Definition eligible_offers (db : DB) (session_id : string) (year : Z)
    (period : LoadPeriodEnum) : list Offer :=
  offer_of period <$>
    List.filter
      (fun b =>
         bool_decide (bid_game_session_id b = session_id)
         && bool_decide (bid_year b = year)
         && match find (fun p => bool_decide (plant_id_of p = bid_plant_id b))
                       (power_plants db) with
            | Some p => bool_decide (status p = operating)
            | None => false
            end)
      (yearly_bids db).

(** Modelled from the spec: the result of the missing engine.  [dispatch]
    is the accepted offers in acceptance order, each with the quantity
    taken from it. *)
Record ClearingResult := {
  result_period : LoadPeriodEnum;
  clearing_price : option Q;
  cleared_quantity : Q;
  total_energy : Q;
  dispatch : list (Offer * Q);
  marginal_plant : option string;
  supply_shortfall : bool
}.

Definition accepted_offers (r : ClearingResult) : list Offer := (dispatch r).*1.

(** Modelled from the spec: the merit order of step 1 of the missing
    engine's algorithm, ascending price with ties broken by ascending
    plant identifier. *)
Definition merit_le (a b : Offer) : bool :=
  match (offer_price a ?= offer_price b)%Q with
  | Lt => true
  | Eq => String.leb (offer_plant_id a) (offer_plant_id b)
  | Gt => false
  end.

Fixpoint merit_insert (o : Offer) (sorted : list Offer) : list Offer :=
  match sorted with
  | [] => [o]
  | o' :: rest =>
      if merit_le o o' then o :: o' :: rest else o' :: merit_insert o rest
  end.

(** Modelled from the spec: step 1 of the missing engine, the offers
    sorted in merit order (an insertion sort). *)
Definition merit_order (offers : list Offer) : list Offer :=
  foldr merit_insert [] offers.

(** Modelled from the spec: steps 2 and 6 of the missing engine.  Offers
    are accepted in sorted order until the cumulative quantity reaches the
    demand or the offers are exhausted; what is taken from an offer is its
    quantity, or only the portion needed to reach the demand. *)
Fixpoint accept (demand_mw cumulative : Q) (sorted : list Offer)
  : list (Offer * Q) :=
  match sorted with
  | [] => []
  | o :: rest =>
      if Qle_bool demand_mw cumulative then []
      else (o, Qmin (offer_quantity o) (demand_mw - cumulative))
           :: accept demand_mw (cumulative + offer_quantity o)%Q rest
  end.

(** The sum of the offered quantities. *)
Definition offered_quantity (offers : list Offer) : Q :=
  foldr (fun o acc => offer_quantity o + acc)%Q 0%Q offers.

(** The sum of the quantities taken. *)
Definition taken_quantity (accepted : list (Offer * Q)) : Q :=
  foldr (fun a acc => a.2 + acc)%Q 0%Q accepted.

(** Modelled from the spec: [clear(period, demand_mw, eligible_bids)] of
    the market clearing engine, which is missing from the sources, steps
    1 to 7.  [period_hours] is the period's hour count of the demand
    profile.  The clearing price is that of the marginal offer, the last
    one accepted (steps 3 and 4), and is undefined when nothing is
    accepted (step 5); the cleared quantity is what has been taken from
    the accepted offers (step 6); the shortfall flag is raised when the
    offered quantity is less than the demand (step 4). *)
Definition clear (period : LoadPeriodEnum) (period_hours demand_mw : Q)
    (offers : list Offer) : ClearingResult :=
  let sorted := merit_order offers in
  let accepted := accept demand_mw 0 sorted in
  let marginal := last accepted.*1 in
  let available := offered_quantity offers in
  let cleared := taken_quantity accepted in
  {| result_period := period;
     clearing_price := offer_price <$> marginal;
     cleared_quantity := cleared;
     total_energy := (cleared * period_hours)%Q;
     dispatch := accepted;
     marginal_plant := offer_plant_id <$> marginal;
     supply_shortfall := negb (Qle_bool demand_mw available) |}.




Definition example_offers : list Offer :=
  [ {| offer_bid_id := "bid_a"; offer_plant_id := "plant_a";
       offer_quantity := 400; offer_price := 45 |};
    {| offer_bid_id := "bid_b"; offer_plant_id := "plant_b";
       offer_quantity := 200; offer_price := 85 |};
    {| offer_bid_id := "bid_c"; offer_plant_id := "plant_c";
       offer_quantity := 150; offer_price := 0 |} ].

End Clearing.

(** ** Histories

    What the endpoints of the API can do to a session row, and how the bid
    table is built. *)


Inductive bid_book : list DBYearlyBid -> Prop :=
  | book_empty : bid_book []
  | book_submit new_id now session_id bid utility_id db b db' :
      bid_book (yearly_bids db) ->
      submit_yearly_bid new_id now session_id bid utility_id db = Returned b db' ->
      bid_book (yearly_bids db').

(** ** A small game *)

Module Demo.

Definition demand : DemandData :=
  {| dd_off_peak_hours := 5000; dd_shoulder_hours := 2500;
     dd_peak_hours := 1260;
     dd_off_peak_demand := 1200; dd_shoulder_demand := 1800;
     dd_peak_demand := 2400; dd_demand_growth_rate := 0.02 |}.

(** "Schedule has only year 2025 at $3.00/MMBtu". *)
Definition schedule : gmap Z (gmap string Q) :=
  {[ 2025 := {[ "natural_gas" := 3.00%Q ]} ]}.

Definition template (t : PlantTypeEnum) : PlantTemplate :=
  {| template_name := "Combined Cycle";
     overnight_cost_per_kw := 1000;
     construction_time_years := 3;
     economic_life_years := 30;
     capacity_factor_base := 0.55;
     template_heat_rate := Some 6.4%Q;
     template_fuel_type := Some "natural_gas";
     fixed_om_per_kw_year := 15;
     template_variable_om_per_mwh := 3;
     co2_emissions_tons_per_mwh := 0.35;
     min_generation_pct := 0.4 |}.

Definition session (year : Z) (st : GameStateEnum) : DBGameSession :=
  {| session_id_of := "game"; session_name := "Game"; operator_id := "op";
     current_year := year; start_year := 2025; end_year := 2035;
     state := st; demand_profile := demand;
     carbon_price_per_ton := 50; discount_rate := 0.08;
     inflation_rate := 0.025; fuel_prices := schedule |}.

Definition acme : DBUser :=
  {| user_id := "acme"; username := "acme"; user_type := utility;
     budget := 1000000000; debt := 0; equity := 1000000000 |}.

Definition plant : DBPowerPlant :=
  {| plant_id_of := "p1"; plant_utility_id := "acme";
     plant_game_session_id := "game"; plant_name := "Gas One";
     plant_type := natural_gas_cc; capacity_mw := 100;
     construction_start_year := 2022; commissioning_year := 2025;
     retirement_year := 2055; status := operating;
     capital_cost_total := 100000000; fixed_om_annual := 1500000;
     variable_om_per_mwh := 3; capacity_factor := 0.55;
     heat_rate := Some 6.4%Q; fuel_type := Some "natural_gas";
     min_generation_mw := 40; maintenance_years := [] |}.

Definition db (year : Z) (st : GameStateEnum) : DB :=
  {| users := {[ "acme" := acme ]};
     game_sessions := {[ "game" := session year st ]};
     power_plants := [plant];
     yearly_bids := [] |}.

Definition new_plant (commissioning : Z) : PowerPlantCreate :=
  {| ppc_name := "Gas Two"; ppc_plant_type := "natural_gas_cc";
     ppc_capacity_mw := 100;
     ppc_construction_start_year := commissioning - 2;
     ppc_commissioning_year := commissioning;
     ppc_retirement_year := commissioning + 25 |}.

Definition bid (q price : Q) : YearlyBidCreate :=
  {| ybc_plant_id := "p1"; ybc_year := 2025;
     ybc_off_peak_quantity := q; ybc_shoulder_quantity := q;
     ybc_peak_quantity := q;
     ybc_off_peak_price := price; ybc_shoulder_price := price;
     ybc_peak_price := price |}.

(** A bid for 2020, five years before plant [p1] is commissioned. *)
Definition early_bid : YearlyBidCreate :=
  {| ybc_plant_id := "p1"; ybc_year := 2020;
     ybc_off_peak_quantity := 100; ybc_shoulder_quantity := 100;
     ybc_peak_quantity := 100;
     ybc_off_peak_price := 40; ybc_shoulder_price := 40;
     ybc_peak_price := 40 |}.

(** The bid table after a first submission for plant [p1] and 2025. *)
Definition first_bid : DBYearlyBid :=
  {| bid_id := "b1"; bid_utility_id := "acme"; bid_game_session_id := "game";
     bid_plant_id := "p1"; bid_year := 2025;
     off_peak_quantity := 100; shoulder_quantity := 100; peak_quantity := 100;
     off_peak_price := 40; shoulder_price := 40; peak_price := 40;
     bid_timestamp := 1 |}.

Definition db_with_bid (st : GameStateEnum) : DB :=
  with_yearly_bids [first_bid] (db 2025 st).


Definition empty_db : DB :=
  {| users := ∅; game_sessions := ∅; power_plants := []; yearly_bids := [] |}.



End Demo.

(** ** Users, plant listings and market results

    The endpoints of [market_game_api.py] that the sections above leave
    out. *)

Record UserCreate := {
  uc_username : string;
  uc_user_type : string
}.

(** [UserTypeEnum(user.user_type)] *)
Definition UserTypeEnum_of_value (v : string) : option UserTypeEnum :=
  if decide (v = "operator") then Some operator
  else if decide (v = "utility") then Some utility
  else None.

(** What [create_user] can end in: the commit raises [IntegrityError] (no
    handler, nothing stored) when the id or the unique username is taken;
    the other endings are those of [outcome]. *)
Inductive flushed (A : Type) :=
  | Flushed (o : outcome A)
  | IntegrityError.
Arguments Flushed {A} o.
Arguments IntegrityError {A}.

(** Column defaults fill [budget], [debt] and [equity]. *)
Definition create_user (new_id : string) (user : UserCreate) (db : DB)
  : flushed DBUser :=
  match UserTypeEnum_of_value (uc_user_type user) with
  | None => Flushed (Raised ValueError)
  | Some ty =>
      let db_user :=
        {| user_id := new_id; username := uc_username user; user_type := ty;
           budget := 1000000000.0; debt := 0.0; equity := 1000000000.0 |} in
      match add_user db_user (users db) with
      | None => IntegrityError
      | Some us =>
          Flushed (Returned db_user
                     {| users := us; game_sessions := game_sessions db;
                        power_plants := power_plants db;
                        yearly_bids := yearly_bids db |})
      end
  end.

Definition get_user (user_id : string) (db : DB) : outcome DBUser :=
  match users db !! user_id with
  | None => Raised (HTTPException 404 "User not found")
  | Some user => Returned user db
  end.

Record FinancialSummary := {
  fs_utility_id : string;
  fs_budget : Q;
  fs_debt : Q;
  fs_equity : Q;
  fs_total_capital_invested : Q;
  fs_annual_fixed_costs : Q;
  fs_plant_count : nat;
  fs_total_capacity_mw : Q
}.

Definition get_user_financials (user_id game_session_id : string) (db : DB)
  : outcome FinancialSummary :=
  match users db !! user_id with
  | None => Raised (HTTPException 404 "User not found")
  | Some user =>
      let plants :=
        filter (fun p => plant_utility_id p = user_id
                       /\ plant_game_session_id p = game_session_id)
               (power_plants db) in
      Returned
        {| fs_utility_id := user_id;
           fs_budget := budget user;
           fs_debt := debt user;
           fs_equity := equity user;
           fs_total_capital_invested := float_sum (capital_cost_total <$> plants);
           fs_annual_fixed_costs := float_sum (fixed_om_annual <$> plants);
           fs_plant_count := length plants;
           fs_total_capacity_mw := float_sum (capacity_mw <$> plants) |}
        db
  end.


(** [if utility_id:] skips the filter for a missing or empty argument. *)
Definition get_power_plants (session_id : string) (utility_id : option string)
    (db : DB) : list DBPowerPlant :=
  let query :=
    filter (fun p => plant_game_session_id p = session_id) (power_plants db) in
  match utility_id with
  | Some u =>
      if bool_decide (u = "") then query
      else filter (fun p => plant_utility_id p = u) query
  | None => query
  end.





#[global] Instance LoadPeriodEnum_eq_dec : EqDecision LoadPeriodEnum.
Proof. solve_decision. Defined.

(** [LoadPeriodEnum(period)] *)
Definition LoadPeriodEnum_of_value (v : string) : option LoadPeriodEnum :=
  if decide (v = "off_peak") then Some off_peak
  else if decide (v = "shoulder") then Some shoulder
  else if decide (v = "peak") then Some peak
  else None.


(** [n] calls of [advance_year] in a row; [None] when one of them raises. *)
Fixpoint advance_years (n : nat) (session_id : string) (db : DB) : option DB :=
  match n with
  | O => Some db
  | S k =>
      match advance_year session_id db with
      | Returned _ db' => advance_years k session_id db'
      | Raised _ => None
      end
  end.

(** ** Game scenarios ([startup.py]) *)

Record Generator := {
  gen_name : string;
  gen_max_capacity : Q;
  gen_min_capacity : Q;
  gen_marginal_cost : Q;
  gen_startup_cost : Q
}.

Record Scenario := {
  sc_name : string;
  sc_description : string;
  sc_generators : list Generator;
  sc_demand_multiplier : option Q
}.

Definition GAME_SCENARIOS : gmap string Scenario :=
  {[ "simple_tutorial" :=
       {| sc_name := "Simple Tutorial Market";
          sc_description :=
            "Basic 3-generator scenario for learning fundamentals";
          sc_generators :=
            [ {| gen_name := "Base Coal Plant"; gen_max_capacity := 400;
                 gen_min_capacity := 200; gen_marginal_cost := 45.0;
                 gen_startup_cost := 8000 |};
              {| gen_name := "Natural Gas Peaker"; gen_max_capacity := 200;
                 gen_min_capacity := 0; gen_marginal_cost := 85.0;
                 gen_startup_cost := 2000 |};
              {| gen_name := "Wind Farm"; gen_max_capacity := 150;
                 gen_min_capacity := 0; gen_marginal_cost := 0.0;
                 gen_startup_cost := 0 |} ];
          sc_demand_multiplier := Some 0.6%Q |};
     "realistic_market" :=
       {| sc_name := "Realistic Regional Market";
          sc_description :=
            "Complex multi-utility scenario with diverse generation mix";
          sc_generators :=
            [ {| gen_name := "Nuclear Base Load"; gen_max_capacity := 800;
                 gen_min_capacity := 600; gen_marginal_cost := 25.0;
                 gen_startup_cost := 50000 |};
              {| gen_name := "Coal Plant"; gen_max_capacity := 500;
                 gen_min_capacity := 250; gen_marginal_cost := 45.0;
                 gen_startup_cost := 15000 |};
              {| gen_name := "Combined Cycle Gas"; gen_max_capacity := 400;
                 gen_min_capacity := 200; gen_marginal_cost := 65.0;
                 gen_startup_cost := 8000 |};
              {| gen_name := "Gas Peaker"; gen_max_capacity := 200;
                 gen_min_capacity := 0; gen_marginal_cost := 95.0;
                 gen_startup_cost := 1000 |};
              {| gen_name := "Solar Farm"; gen_max_capacity := 300;
                 gen_min_capacity := 0; gen_marginal_cost := 0.0;
                 gen_startup_cost := 0 |};
              {| gen_name := "Wind Farm"; gen_max_capacity := 250;
                 gen_min_capacity := 0; gen_marginal_cost := 0.0;
                 gen_startup_cost := 0 |} ];
          sc_demand_multiplier := Some 1.0%Q |} ]}.

Record GameData := {
  gd_name : string;
  gd_operator_id : string;
  gd_description : string;
  gd_scenario_type : string;
  gd_suggested_generators : list Generator;
  gd_demand_multiplier : Q
}.

(** [raise ValueError(f"Unknown scenario: {scenario_name}")]: the message
    is what the endpoint reports. *)
Definition create_scenario_game (scenarios : gmap string Scenario)
    (scenario_name operator_id : string) : string + GameData :=
  match scenarios !! scenario_name with
  | None => inl ("Unknown scenario: " +:+ scenario_name)
  | Some scenario =>
      inr {| gd_name := sc_name scenario;
             gd_operator_id := operator_id;
             gd_description := sc_description scenario;
             gd_scenario_type := scenario_name;
             gd_suggested_generators := sc_generators scenario;
             gd_demand_multiplier :=
               default 1.0%Q (sc_demand_multiplier scenario) |}
  end.

Record ScenarioGameResponse := {
  sgr_status : string;
  sgr_message : string;
  sgr_game_data : GameData
}.

Definition create_scenario_game_endpoint (scenarios : gmap string Scenario)
    (scenario_name operator_id : string) : exn + ScenarioGameResponse :=
  match create_scenario_game scenarios scenario_name operator_id with
  | inr game_data =>
      inr {| sgr_status := "success";
             sgr_message :=
               "Game template created for scenario: " +:+ scenario_name;
             sgr_game_data := game_data |}
  | inl e => inl (HTTPException 400 e)
  end.

Record ScenarioSummary := {
  ss_name : string;
  ss_description : string;
  ss_generator_count : nat;
  ss_complexity : string
}.

Definition list_scenarios (scenarios : gmap string Scenario)
  : gmap string ScenarioSummary :=
  (fun scenario =>
     {| ss_name := sc_name scenario;
        ss_description := sc_description scenario;
        ss_generator_count := length (sc_generators scenario);
        ss_complexity :=
          if Qlt_le_dec (default 1.0%Q (sc_demand_multiplier scenario)) 0.8
          then "Simple" else "Advanced" |}) <$> scenarios.

(** ** More of the small game *)

Module Cases.

(** The store of [Demo.db] with a second utility and without plants. *)
Definition rival : DBUser :=
  {| user_id := "rival"; username := "rival"; user_type := utility;
     budget := 50000000; debt := 0; equity := 50000000 |}.

Definition db : DB :=
  {| users := {[ "acme" := Demo.acme; "rival" := rival ]};
     game_sessions := {[ "game" := Demo.session 2025 year_planning ]};
     power_plants := [];
     yearly_bids := [] |}.

(** A schedule with two known years. *)
Definition schedule : gmap Z (gmap string Q) :=
  {[ 2025 := {[ "natural_gas" := 3.00%Q; "coal" := 2.00%Q ]};
     2026 := {[ "natural_gas" := 3.10%Q; "coal" := 2.05%Q ]} ]}.

Definition session : DBGameSession :=
  {| session_id_of := "game"; session_name := "Game"; operator_id := "op";
     current_year := 2026; start_year := 2025; end_year := 2035;
     state := bidding_open; demand_profile := Demo.demand;
     carbon_price_per_ton := 50; discount_rate := 0.08;
     inflation_rate := 0.025; fuel_prices := schedule |}.

Definition db_2026 : DB :=
  {| users := {[ "acme" := Demo.acme ]};
     game_sessions := {[ "game" := session ]};
     power_plants := [Demo.plant];
     yearly_bids := [] |}.



End Cases.

(** * Properties *)

(** ** The year clock *)

Lemma advance_year_returns session_id db s :
  game_sessions db !! session_id = Some s ->
  advance_year session_id db =
    Returned {| ay_message := "Year advanced";
                ay_current_year := current_year (advance_session s);
                ay_state := GameStateEnum_value (state (advance_session s)) |}
             (with_game_sessions
                (<[session_id := advance_session s]> (game_sessions db)) db).
Proof. intros Hs. unfold advance_year. now rewrite Hs. Qed.

Lemma advance_session_cases s :
  (current_year s < end_year s
   /\ current_year (advance_session s) = current_year s + 1
   /\ state (advance_session s) = year_planning)
  \/ (current_year s >= end_year s
      /\ current_year (advance_session s) = current_year s
      /\ state (advance_session s) = game_complete).
Proof.
  unfold advance_session.
  destruct (Z.geb_spec (current_year s) (end_year s)); [right | left];
    simpl; repeat split; lia.
Qed.

Lemma advance_session_end_year s : end_year (advance_session s) = end_year s.
Proof. unfold advance_session. now destruct (_ >=? _). Qed.



(** C3: advancing the year of a session with [current_year < end_year]
    increments [current_year] by exactly 1 and sets the state to
    [year_planning]; advancing with [current_year = end_year] sets the
    state to [game_complete], not [year_planning], leaves the year alone,
    and a further advance changes nothing any more (terminal). *)
Theorem advance_year_transition session_id db s :
  game_sessions db !! session_id = Some s ->
  exists r db' s',
    advance_year session_id db = Returned r db'
    /\ game_sessions db' !! session_id = Some s'
    /\ (current_year s < end_year s ->
        current_year s' = current_year s + 1 /\ state s' = year_planning)
    /\ (current_year s = end_year s ->
        state s' = game_complete /\ state s' <> year_planning
        /\ current_year s' = current_year s
        /\ advance_session s' = s').
Proof.
  intros Hs. rewrite (advance_year_returns _ _ _ Hs).
  eexists _, _, (advance_session s). split; [reflexivity |].
  split; [apply lookup_insert_eq |].
  unfold advance_session.
  destruct (Z.geb_spec (current_year s) (end_year s)) as [Hge | Hlt]; simpl.
  - split; [lia |]. intros _. repeat split; try congruence.
    destruct (Z.geb_spec (current_year s) (end_year s)); [reflexivity | lia].
  - split; [auto | lia].
Qed.

Lemma advance_year_transition_witness :
  exists r db' s',
    advance_year "game" (Demo.db 2034 year_complete) = Returned r db'
    /\ game_sessions db' !! "game" = Some s'
    /\ current_year s' = 2035 /\ state s' = year_planning.
Proof.
  destruct (advance_year_transition "game" (Demo.db 2034 year_complete)
              (Demo.session 2034 year_complete))
    as (r & db' & s' & Hr & Hs' & Hlt & _); [reflexivity |].
  exists r, db', s'. destruct Hlt as [Hy Hst]; [simpl; lia |].
  auto.
Defined.

(** C10: [advance_year] looks at no lifecycle state.  For a session in any
    state it returns normally and rewrites the session: either the year is
    incremented and the state becomes [year_planning], or (when
    [current_year >= end_year]) the year is kept and the state becomes
    [game_complete]; a year that does not exceed [end_year] never does so
    afterwards. *)
Theorem advance_year_any_state session_id db s st :
  game_sessions db !! session_id = Some s ->
  state s = st ->
  exists r db' s',
    advance_year session_id db = Returned r db'
    /\ game_sessions db' !! session_id = Some s'
    /\ ((current_year s < end_year s
         /\ current_year s' = current_year s + 1 /\ state s' = year_planning)
        \/ (current_year s >= end_year s
            /\ current_year s' = current_year s /\ state s' = game_complete))
    /\ end_year s' = end_year s
    /\ (current_year s <= end_year s -> current_year s' <= end_year s').
Proof.
  intros Hs _. rewrite (advance_year_returns _ _ _ Hs).
  eexists _, _, (advance_session s). split; [reflexivity |].
  split; [apply lookup_insert_eq |].
  rewrite advance_session_end_year.
  pose proof (advance_session_cases s) as Hc.
  split; [exact Hc |]. split; [reflexivity |]. lia.
Qed.

Lemma advance_year_any_state_witness :
  exists r db' s',
    advance_year "game" (Demo.db 2035 game_complete) = Returned r db'
    /\ game_sessions db' !! "game" = Some s'
    /\ current_year s' = 2035 /\ state s' = game_complete.
Proof.
  destruct (advance_year_any_state "game" (Demo.db 2035 game_complete)
              (Demo.session 2035 game_complete) game_complete)
    as (r & db' & s' & Hr & Hs' & Hc & _); [reflexivity | reflexivity |].
  exists r, db', s'. simpl in Hc. intuition lia.
Defined.

(** ** The bid book *)

Lemma bid_for_true session_id plant_id year b :
  bid_for session_id plant_id year b = true <->
  bid_plant_id b = plant_id /\ bid_year b = year
  /\ bid_game_session_id b = session_id.
Proof.
  unfold bid_for. rewrite !andb_true_iff, !bool_decide_eq_true. tauto.
Qed.

Lemma bid_for_overwrite session_id plant_id year bid now b :
  bid_for session_id plant_id year (overwrite_bid bid now b)
  = bid_for session_id plant_id year b.
Proof. reflexivity. Qed.

Section UpdateFirst.

Context {A : Type} (P : A -> bool) (f : A -> A).

Lemma update_first_length l : length (update_first P f l) = length l.
Proof.
  induction l as [| x l IH]; simpl; [reflexivity |].
  destruct (P x); simpl; congruence.
Qed.

Lemma update_first_filter (K : A -> bool) l :
  (forall x, K (f x) = K x) ->
  length (List.filter K (update_first P f l)) = length (List.filter K l).
Proof.
  intros HK. induction l as [| x l IH]; simpl; [reflexivity |].
  destruct (P x); simpl.
  - rewrite HK. now destruct (K x).
  - destruct (K x); simpl; congruence.
Qed.

Lemma update_first_found l x :
  (forall x, P (f x) = P x) ->
  find P l = Some x ->
  exists rest, List.filter P l = x :: rest
               /\ List.filter P (update_first P f l) = f x :: rest.
Proof.
  intros HP. induction l as [| y l IH]; simpl; [discriminate |].
  destruct (P y) eqn:Hy.
  - intros [= ->]. exists (List.filter P l). simpl. rewrite HP, Hy. auto.
  - intros Hx. simpl. rewrite Hy. auto.
Qed.

Lemma find_none_filter l : find P l = None -> List.filter P l = [].
Proof.
  induction l as [| y l IH]; simpl; [reflexivity |].
  destruct (P y); [discriminate | auto].
Qed.

End UpdateFirst.

(** At most one bid per (session, plant, year). *)
Lemma bid_book_unique bs :
  bid_book bs ->
  forall session_id plant_id year,
    (length (List.filter (bid_for session_id plant_id year) bs) <= 1)%nat.
Proof.
  induction 1 as [| new_id now sid bid uid db b db' _ IH Hsub]; intros sid' pid' y'.
  - simpl. lia.
  - unfold submit_yearly_bid in Hsub.
    destruct (find (plant_of_utility _ _ _) _); [| discriminate].
    destruct (find (bid_for sid _ _) (yearly_bids db)) eqn:Hex;
      injection Hsub as <- <-; simpl.
    + rewrite update_first_filter by (intros; apply bid_for_overwrite). apply IH.
    + rewrite List.filter_app, length_app. simpl.
      destruct (bid_for sid' pid' y' _) eqn:Hk; simpl; [| specialize (IH sid' pid' y'); lia].
      apply bid_for_true in Hk. simpl in Hk. destruct Hk as (<- & <- & <-).
      rewrite (find_none_filter _ _ Hex). simpl. lia.
Qed.

Lemma submit_yearly_bid_owned new_id now session_id bid utility_id db p :
  find (plant_of_utility session_id utility_id (ybc_plant_id bid))
       (power_plants db) = Some p ->
  exists b bs,
    submit_yearly_bid new_id now session_id bid utility_id db
    = Returned b (with_yearly_bids bs db)
    /\ In b bs
    /\ bid_plant_id b = ybc_plant_id bid /\ bid_year b = ybc_year bid
    /\ bid_game_session_id b = session_id
    /\ off_peak_quantity b = ybc_off_peak_quantity bid
    /\ shoulder_quantity b = ybc_shoulder_quantity bid
    /\ peak_quantity b = ybc_peak_quantity bid
    /\ off_peak_price b = ybc_off_peak_price bid
    /\ shoulder_price b = ybc_shoulder_price bid
    /\ peak_price b = ybc_peak_price bid.
Proof.
  intros Hp. unfold submit_yearly_bid. rewrite Hp.
  destruct (find (bid_for _ _ _) (yearly_bids db)) as [old |] eqn:Hex.
  - eexists _, _. split; [reflexivity |].
    destruct (update_first_found _ (overwrite_bid bid now) _ _
                (fun x => bid_for_overwrite _ _ _ bid now x) Hex)
      as (rest & _ & Hnew).
    assert (Hin : In (overwrite_bid bid now old)
                     (List.filter (bid_for session_id (ybc_plant_id bid) (ybc_year bid))
                        (update_first (bid_for session_id (ybc_plant_id bid) (ybc_year bid))
                           (overwrite_bid bid now) (yearly_bids db)))).
    { rewrite Hnew. now left. }
    apply List.filter_In in Hin. destruct Hin as [Hin _].
    split; [exact Hin |].
    apply List.find_some in Hex. destruct Hex as [_ Hk].
    apply bid_for_true in Hk. simpl. tauto.
  - eexists _, _. split; [reflexivity |].
    split; [apply List.in_or_app; right; now left |].
    simpl. tauto.
Qed.

(** C9: re-submitting a bid for a (plant, year) that already has one
    rewrites that bid: afterwards exactly one bid exists for the pair, it
    is the prior row carrying the newly submitted quantities and prices
    (not sums with the earlier ones), and no row has been added. *)
Theorem resubmission_replaces new_id now session_id bid utility_id db p prior :
  bid_book (yearly_bids db) ->
  find (plant_of_utility session_id utility_id (ybc_plant_id bid))
       (power_plants db) = Some p ->
  find (bid_for session_id (ybc_plant_id bid) (ybc_year bid))
       (yearly_bids db) = Some prior ->
  exists b db',
    submit_yearly_bid new_id now session_id bid utility_id db = Returned b db'
    /\ List.filter (bid_for session_id (ybc_plant_id bid) (ybc_year bid))
                   (yearly_bids db') = [b]
    /\ bid_id b = bid_id prior
    /\ off_peak_quantity b = ybc_off_peak_quantity bid
    /\ shoulder_quantity b = ybc_shoulder_quantity bid
    /\ peak_quantity b = ybc_peak_quantity bid
    /\ off_peak_price b = ybc_off_peak_price bid
    /\ shoulder_price b = ybc_shoulder_price bid
    /\ peak_price b = ybc_peak_price bid
    /\ length (yearly_bids db') = length (yearly_bids db).
Proof.
  intros Hbook Hp Hprior. unfold submit_yearly_bid. rewrite Hp, Hprior.
  eexists _, _. split; [reflexivity |]. simpl.
  destruct (update_first_found _ (overwrite_bid bid now) _ _
              (fun x => bid_for_overwrite _ _ _ bid now x) Hprior)
    as (rest & Hold & Hnew).
  pose proof (bid_book_unique _ Hbook session_id (ybc_plant_id bid) (ybc_year bid))
    as Huniq.
  rewrite Hold in Huniq. destruct rest; [| simpl in Huniq; lia].
  rewrite Hnew, update_first_length. repeat split; reflexivity.
Qed.

Lemma resubmission_replaces_witness :
  exists b db',
    submit_yearly_bid "b2" 2 "game" (Demo.bid 80 30) "acme"
      (Demo.db_with_bid bidding_open) = Returned b db'
    /\ List.filter (bid_for "game" "p1" 2025) (yearly_bids db') = [b]
    /\ bid_id b = "b1"
    /\ off_peak_quantity b = 80%Q /\ off_peak_price b = 30%Q.
Proof.
  destruct (resubmission_replaces "b2" 2 "game" (Demo.bid 80 30) "acme"
              (Demo.db_with_bid bidding_open) Demo.plant Demo.first_bid)
    as (b & db' & Hsub & Hone & Hid & Hq & _ & _ & Hp & _).
  - apply (book_submit "b1" 1 "game" (Demo.bid 100 40) "acme"
             (Demo.db 2025 bidding_open) Demo.first_bid
             (Demo.db_with_bid bidding_open)); [apply book_empty | reflexivity].
  - reflexivity.
  - reflexivity.
  - exists b, db'. auto.
Defined.







(** ** Plant creation: financing and lifecycle status *)

Section PlantCreation.

Variable PLANT_TEMPLATES : PlantTypeEnum -> PlantTemplate.

(** The cost [create_power_plant] charges for a plant of a known type. *)
Lemma create_power_plant_returns new_id session_id plant utility_id db ty :
  PlantTypeEnum_of_value (ppc_plant_type plant) = Some ty ->
  exists p db',
    create_power_plant PLANT_TEMPLATES new_id session_id plant utility_id db
    = Returned p db'
    /\ capital_cost_total p
       = (ppc_capacity_mw plant * 1000
          * overnight_cost_per_kw (PLANT_TEMPLATES ty))%Q
    /\ status p = (if ppc_commissioning_year plant <=? 2025
                   then operating else under_construction)
    /\ users db' !! utility_id
       = finance_plant (capital_cost_total p) <$> users db !! utility_id
    /\ power_plants db' = power_plants db ++ [p].
Proof.
  intros Hty. unfold create_power_plant. rewrite Hty.
  eexists _, _. split; [reflexivity |]. simpl.
  repeat split; try reflexivity.
  destruct (users db !! utility_id) eqn:Hu; simpl.
  - now rewrite lookup_insert_eq.
  - exact Hu.
Qed.

(** The three postings are made together or not at all: the budget falls
    by the whole capital cost, the debt rises by 70% of it and the equity
    falls by 30% of it. *)
Lemma finance_plant_postings cost u :
  (budget (finance_plant cost u) == budget u - cost
   /\ debt (finance_plant cost u) == debt u + 0.7 * cost
   /\ equity (finance_plant cost u) == equity u - 0.3 * cost)%Q.
Proof. unfold finance_plant; simpl. repeat split; ring. Qed.

(** The sample-data path posts 30% of the investment to the budget. *)
Lemma finance_existing_postings total u :
  (budget (finance_existing total u) == budget u - 0.3 * total
   /\ debt (finance_existing total u) == 0.7 * total
   /\ equity (finance_existing total u) == equity u - 0.3 * total)%Q.
Proof. unfold finance_existing; simpl. repeat split; ring. Qed.

Lemma update_utility_finances_utility db id u :
  users db !! id = Some u ->
  user_type u = utility ->
  users (update_utility_finances db) !! id
  = Some (finance_existing (total_invested (user_id u) (power_plants db)) u).
Proof.
  intros Hu Hty. unfold update_utility_finances; simpl.
  rewrite lookup_fmap, Hu. simpl. now rewrite Hty.
Qed.

(** The status given at creation does not depend on the store, hence not
    on the session's current year. *)
Lemma create_power_plant_status_any_store new_id session_id plant utility_id
    db1 db2 p1 p2 db1' db2' :
  create_power_plant PLANT_TEMPLATES new_id session_id plant utility_id db1
  = Returned p1 db1' ->
  create_power_plant PLANT_TEMPLATES new_id session_id plant utility_id db2
  = Returned p2 db2' ->
  status p1 = status p2.
Proof.
  unfold create_power_plant.
  destruct (PlantTypeEnum_of_value _); [| discriminate].
  intros [= <- _] [= <- _]. reflexivity.
Qed.

End PlantCreation.

(** On a fresh store the sample data is created and utility_1, which
    starts with 2,000,000,000, is left with that budget less 30% of its
    three plants' capital cost, and a debt of 70% of it. *)
Lemma create_sample_data_finances :
  exists info db' u,
    create_sample_data Demo.template Demo.schedule Demo.demand Demo.empty_db
    = (Some info, db')
    /\ users db' !! "utility_1" = Some u
    /\ let invested := total_invested "utility_1" (power_plants db') in
       (invested == 1150000000
        /\ budget u == 2000000000 - 0.3 * invested
        /\ debt u == 0.7 * invested
        /\ equity u == 2000000000 - 0.3 * invested)%Q.
Proof.
  eexists _, _, _. split; [vm_compute; reflexivity |].
  split; [vm_compute; reflexivity |].
  vm_compute. repeat split; reflexivity.
Qed.

(** C2: the capital committed by [create_power_plant] for a 100 MW plant
    at 1000 per kW (capital cost 100,000,000) is posted in full to the
    budget, which falls from 1,000,000,000 to 900,000,000 and not to
    970,000,000; debt rises by 70,000,000 and equity falls by 30,000,000. *)
Theorem create_power_plant_debits_full_cost :
  exists p db' u',
    create_power_plant Demo.template "p2" "game" (Demo.new_plant 2028) "acme"
      (Demo.db 2025 year_planning) = Returned p db'
    /\ users db' !! "acme" = Some u'
    /\ (capital_cost_total p == 100000000
        /\ budget u' == budget Demo.acme - capital_cost_total p
        /\ ~ budget u' == budget Demo.acme - 0.3 * capital_cost_total p
        /\ debt u' == debt Demo.acme + 0.7 * capital_cost_total p
        /\ equity u' == equity Demo.acme - 0.3 * capital_cost_total p)%Q.
Proof.
  eexists _, _, _. split; [reflexivity |]. split; [reflexivity |].
  simpl. repeat split; try reflexivity.
  intros H. vm_compute in H. discriminate.
Qed.

(** C5: the status given at creation compares the commissioning year with
    the constant 2025.  In a session whose current year is 2030 a plant
    commissioned in 2028 and retiring in 2053 is created
    [under_construction]; in a session at 2025 a plant commissioned in
    1990 that retired in 2015 is created [operating]. *)
Theorem create_power_plant_status_fixed_year :
  (exists s p db',
     game_sessions (Demo.db 2030 year_planning) !! "game" = Some s
     /\ current_year s = 2030
     /\ create_power_plant Demo.template "p2" "game" (Demo.new_plant 2028)
          "acme" (Demo.db 2030 year_planning) = Returned p db'
     /\ commissioning_year p = 2028 /\ retirement_year p = 2053
     /\ status p = under_construction)
  /\ (exists s p db',
        game_sessions (Demo.db 2025 year_planning) !! "game" = Some s
        /\ current_year s = 2025
        /\ create_power_plant Demo.template "p2" "game" (Demo.new_plant 1990)
             "acme" (Demo.db 2025 year_planning) = Returned p db'
        /\ commissioning_year p = 1990 /\ retirement_year p = 2015
        /\ status p = operating).
Proof.
  split; eexists _, _, _; (split; [reflexivity |]);
    (split; [reflexivity |]); (split; [reflexivity |]); auto.
Qed.

(** ** Fuel prices *)






(** An empty schedule has no latest year: [max] raises. *)
Lemma get_fuel_prices_empty_schedule session_id year db s :
  game_sessions db !! session_id = Some s ->
  fuel_prices s = ∅ ->
  get_fuel_prices session_id year db = Raised ValueError.
Proof.
  intros Hs He. unfold get_fuel_prices. rewrite Hs, He. reflexivity.
Qed.

(** The prices returned depend on the schedule and the year only. *)
Lemma get_fuel_prices_deterministic id1 id2 year db1 db2 s1 s2 :
  game_sessions db1 !! id1 = Some s1 ->
  game_sessions db2 !! id2 = Some s2 ->
  fuel_prices s1 = fuel_prices s2 ->
  match get_fuel_prices id1 year db1, get_fuel_prices id2 year db2 with
  | Returned r1 _, Returned r2 _ => r1 = r2
  | Raised e1, Raised e2 => e1 = e2
  | _, _ => False
  end.
Proof.
  intros H1 H2 Heq. unfold get_fuel_prices. rewrite H1, H2, Heq.
  destruct (no_prices _); [| reflexivity].
  destruct (latest_known_year _); [| reflexivity].
  destruct (fuel_prices s2 !! _); [| reflexivity].
  destruct (float_pow _ _); reflexivity.
Qed.




(** ** Demand growth *)




Section DemandGrowth.

Variable DEFAULT_FUEL_PRICES : gmap Z (gmap string Q).
Variable profile_defaults : DemandData.


End DemandGrowth.


(** ** Market clearing *)

Section ClearingFacts.

Import Clearing.















End ClearingFacts.

(** Step 5 of the algorithm: with no offers nothing is accepted, the
    price is undefined and the cleared quantity is 0. *)
Lemma clear_no_offers period period_hours demand_mw :
  let r := Clearing.clear period period_hours demand_mw [] in
  Clearing.clearing_price r = None
  /\ Clearing.accepted_offers r = []
  /\ Clearing.marginal_plant r = None
  /\ (Clearing.cleared_quantity r == 0)%Q.
Proof. unfold Clearing.clear. simpl. repeat split. Qed.



(** The worked example of the clearing algorithm: plant A 400 MW at 45,
    plant B 200 MW at 85, plant C 150 MW at 0. *)
Example clear_500 :
  let r := Clearing.clear peak 1260 500 Clearing.example_offers in
  Clearing.clearing_price r = Some 45%Q
  /\ (Clearing.cleared_quantity r == 500)%Q
  /\ (fun a => (Clearing.offer_plant_id a.1, a.2)) <$> Clearing.dispatch r
     = [("plant_c", 150%Q); ("plant_a", 350%Q)]
  /\ Clearing.supply_shortfall r = false.
Proof. vm_compute. repeat split; reflexivity. Qed.

Example clear_700 :
  let r := Clearing.clear peak 1260 700 Clearing.example_offers in
  Clearing.clearing_price r = Some 85%Q
  /\ (Clearing.cleared_quantity r == 700)%Q
  /\ (fun a => (Clearing.offer_plant_id a.1, a.2)) <$> Clearing.dispatch r
     = [("plant_c", 150%Q); ("plant_a", 400%Q); ("plant_b", 150%Q)]
  /\ Clearing.supply_shortfall r = false.
Proof. vm_compute. repeat split; reflexivity. Qed.

Example clear_1000 :
  let r := Clearing.clear peak 1260 1000 Clearing.example_offers in
  Clearing.clearing_price r = Some 85%Q
  /\ (Clearing.cleared_quantity r == 750)%Q
  /\ (fun a => (Clearing.offer_plant_id a.1, a.2)) <$> Clearing.dispatch r
     = [("plant_c", 150%Q); ("plant_a", 400%Q); ("plant_b", 200%Q)]
  /\ Clearing.supply_shortfall r = true.
Proof. vm_compute. repeat split; reflexivity. Qed.

(** * Further properties of the API *)

(** ** Session state and the year clock *)

Lemma GameStateEnum_of_value_value st :
  GameStateEnum_of_value (GameStateEnum_value st) = Some st.
Proof. destruct st; reflexivity. Qed.

Lemma GameStateEnum_of_value_Some v st :
  GameStateEnum_of_value v = Some st -> GameStateEnum_value st = v.
Proof.
  unfold GameStateEnum_of_value.
  repeat (case_decide; [intros [= <-]; subst v; reflexivity |]).
  discriminate.
Qed.

(** X1: [update_game_state] validates the name of the state and nothing
    else.  With the name of any of the six states it puts an existing
    session in that state, whatever state it was in (also out of
    [game_complete]), leaving the rest of the row alone; with any other
    string it raises HTTP 400. *)
Theorem update_game_state_any_transition session_id db s :
  game_sessions db !! session_id = Some s ->
  (forall st, exists r db',
      update_game_state session_id (GameStateEnum_value st) db = Returned r db'
      /\ game_sessions db' !! session_id = Some (with_state st s))
  /\ (forall v, (forall st, GameStateEnum_value st <> v) ->
        update_game_state session_id v db
        = Raised (HTTPException 400 ("Invalid game state: " +:+ v))).
Proof.
  intros Hs. split.
  - intros st. unfold update_game_state.
    rewrite Hs, GameStateEnum_of_value_value.
    eexists _, _. split; [reflexivity |]. apply lookup_insert_eq.
  - intros v Hv. unfold update_game_state. rewrite Hs.
    destruct (GameStateEnum_of_value v) as [st |] eqn:Hst; [| reflexivity].
    apply GameStateEnum_of_value_Some in Hst. now apply Hv in Hst.
Qed.

Lemma update_game_state_any_transition_witness :
  exists r db',
    update_game_state "game" "bidding_open" (Demo.db 2035 game_complete)
    = Returned r db'
    /\ game_sessions db' !! "game" = Some (Demo.session 2035 bidding_open).
Proof.
  destruct (update_game_state_any_transition "game" (Demo.db 2035 game_complete)
              (Demo.session 2035 game_complete)) as [Hany _]; [reflexivity |].
  exact (Hany bidding_open).
Defined.

(** X2: the clock after [n] year advances.  For a session whose year does
    not exceed its end year, [n] calls of [advance_year] all return, the
    year is then min(current_year + n, end_year), and (for n > 0) the
    state is [year_planning] while current_year + n <= end_year and
    [game_complete] from the call after the end year is reached. *)
Theorem advance_years_clock n session_id db s :
  game_sessions db !! session_id = Some s ->
  current_year s <= end_year s ->
  exists db' s',
    advance_years n session_id db = Some db'
    /\ game_sessions db' !! session_id = Some s'
    /\ current_year s' = Z.min (current_year s + Z.of_nat n) (end_year s)
    /\ end_year s' = end_year s
    /\ ((0 < n)%nat ->
        state s' = if current_year s + Z.of_nat n <=? end_year s
                   then year_planning else game_complete).
Proof.
  revert db s. induction n as [| k IH]; intros db s Hs Hle.
  - exists db, s. simpl. repeat split; [exact Hs | lia | lia].
  - simpl advance_years. rewrite (advance_year_returns _ _ _ Hs).
    pose proof (advance_session_cases s) as Hc.
    pose proof (advance_session_end_year s) as He.
    destruct (IH (with_game_sessions
                    (<[session_id := advance_session s]> (game_sessions db)) db)
                 (advance_session s))
      as (db' & s' & Hrun & Hs' & Hy & Hend & Hst).
    + apply lookup_insert_eq.
    + lia.
    + exists db', s'. split; [exact Hrun |]. split; [exact Hs' |].
      split; [lia |]. split; [congruence |]. intros _.
      destruct k as [| k'].
      * simpl in Hrun. injection Hrun as <-. simpl in Hs'.
        rewrite lookup_insert_eq in Hs'. injection Hs' as <-.
        destruct (Z.leb_spec (current_year s + Z.of_nat 1) (end_year s));
          destruct Hc as [(? & ? & ?) | (? & ? & ?)]; auto; lia.
      * rewrite Hst by lia.
        destruct (Z.leb_spec (current_year (advance_session s) + Z.of_nat (S k'))
                             (end_year (advance_session s)));
          destruct (Z.leb_spec (current_year s + Z.of_nat (S (S k'))) (end_year s));
          auto; lia.
Qed.

Lemma advance_years_clock_witness :
  exists db' s',
    advance_years 12 "game" (Demo.db 2025 setup) = Some db'
    /\ game_sessions db' !! "game" = Some s'
    /\ current_year s' = 2035 /\ state s' = game_complete.
Proof.
  destruct (advance_years_clock 12 "game" (Demo.db 2025 setup)
              (Demo.session 2025 setup))
    as (db' & s' & Hrun & Hs' & Hy & _ & Hst); [reflexivity | simpl; lia |].
  exists db', s'. split; [exact Hrun |]. split; [exact Hs' |].
  split; [exact Hy | apply Hst; lia].
Defined.

(** X3: [advance_year] writes the year and state of the addressed session
    and nothing else: users, plants, bids and every other session are as
    before, the session keeps its start and end year, demand profile,
    fuel prices and carbon price, and the response reports the year and
    state just stored. *)
Theorem advance_year_frame session_id db r db' :
  advance_year session_id db = Returned r db' ->
  users db' = users db
  /\ power_plants db' = power_plants db
  /\ yearly_bids db' = yearly_bids db
  /\ (forall other, other <> session_id ->
        game_sessions db' !! other = game_sessions db !! other)
  /\ exists s s',
       game_sessions db !! session_id = Some s
       /\ game_sessions db' !! session_id = Some s'
       /\ start_year s' = start_year s /\ end_year s' = end_year s
       /\ demand_profile s' = demand_profile s
       /\ fuel_prices s' = fuel_prices s
       /\ carbon_price_per_ton s' = carbon_price_per_ton s
       /\ ay_current_year r = current_year s'
       /\ ay_state r = GameStateEnum_value (state s').
Proof.
  unfold advance_year.
  destruct (game_sessions db !! session_id) as [s |] eqn:Hs; [| discriminate].
  intros [= <- <-]. simpl. repeat split.
  - intros other Hne. now apply lookup_insert_ne.
  - exists s, (advance_session s). split; [reflexivity |].
    split; [apply lookup_insert_eq |].
    unfold advance_session. destruct (_ >=? _); simpl; repeat split.
Qed.

Lemma advance_year_frame_witness :
  exists r db',
    advance_year "game" (Demo.db 2025 year_complete) = Returned r db'
    /\ users db' = users (Demo.db 2025 year_complete)
    /\ ay_current_year r = 2026.
Proof.
  eexists _, _. split; [reflexivity |].
  destruct (advance_year_frame "game" (Demo.db 2025 year_complete) _ _ eq_refl)
    as (Hu & _). split; [exact Hu | reflexivity].
Defined.

Section SessionCreation.

Variable DEFAULT_FUEL_PRICES : gmap Z (gmap string Q).
Variable profile_defaults : DemandData.


End SessionCreation.


(** ** Plants: creation, listing, finances *)

Lemma float_sum_snoc l x : float_sum (l ++ [x]) = (float_sum l + x)%Q.
Proof. unfold float_sum. now rewrite foldl_app. Qed.


Lemma find_app_fresh {A} (P : A -> bool) l x :
  Forall (fun y => P y = false) l -> P x = false -> find P (l ++ [x]) = None.
Proof.
  induction 1 as [| y l Hy _ IH]; intros Hx; simpl.
  - now rewrite Hx.
  - rewrite Hy. auto.
Qed.

Section PlantLifecycle.

Variable PLANT_TEMPLATES : PlantTypeEnum -> PlantTemplate.

Lemma create_power_plant_row new_id session_id plant utility_id db p db' :
  create_power_plant PLANT_TEMPLATES new_id session_id plant utility_id db
  = Returned p db' ->
  plant_id_of p = new_id
  /\ plant_utility_id p = utility_id
  /\ plant_game_session_id p = session_id
  /\ power_plants db' = power_plants db ++ [p]
  /\ game_sessions db' = game_sessions db
  /\ yearly_bids db' = yearly_bids db.
Proof.
  unfold create_power_plant.
  destruct (PlantTypeEnum_of_value _) as [ty |]; [| discriminate].
  intros [= <- <-]. simpl. repeat split.
Qed.




(** X8: what [get_user_financials] reports across a plant creation.  For
    an existing utility, creating a plant in a session adds one to the
    plant count of that session and the plant's capital cost to the total
    capital invested, and takes the same amount off the budget: budget
    plus capital invested is unchanged. *)
Theorem financials_after_create new_id session_id plant utility_id db p db' f :
  create_power_plant PLANT_TEMPLATES new_id session_id plant utility_id db
  = Returned p db' ->
  get_user_financials utility_id session_id db = Returned f db ->
  exists f',
    get_user_financials utility_id session_id db' = Returned f' db'
    /\ fs_plant_count f' = S (fs_plant_count f)
    /\ (fs_total_capital_invested f'
        == fs_total_capital_invested f + capital_cost_total p)%Q
    /\ (fs_budget f' == fs_budget f - capital_cost_total p)%Q
    /\ (fs_budget f' + fs_total_capital_invested f'
        == fs_budget f + fs_total_capital_invested f)%Q.
Proof.
  unfold create_power_plant.
  destruct (PlantTypeEnum_of_value _) as [ty |]; [| discriminate].
  intros [= <- <-]. unfold get_user_financials. simpl.
  destruct (users db !! utility_id) as [u |] eqn:Hu; [| discriminate].
  intros [= <-]. rewrite lookup_insert_eq.
  eexists. split; [reflexivity |]. simpl.
  rewrite filter_app, filter_cons_True by (simpl; auto).
  rewrite filter_nil, !fmap_app, length_app. simpl.
  rewrite !float_sum_snoc. simpl.
  split; [lia |]. split; [reflexivity |]. split; [reflexivity |]. ring.
Qed.

(** X9: a created plant is listed.  After [create_power_plant] the plant
    is among [get_power_plants] of its session, with or without the
    utility filter, and every plant the listing returns belongs to the
    session asked for. *)
Theorem created_plant_listed new_id session_id plant utility_id db p db' :
  create_power_plant PLANT_TEMPLATES new_id session_id plant utility_id db
  = Returned p db' ->
  p ∈ get_power_plants session_id (Some utility_id) db'
  /\ p ∈ get_power_plants session_id None db'
  /\ (forall sid u q, q ∈ get_power_plants sid u db' ->
        plant_game_session_id q = sid).
Proof.
  unfold create_power_plant.
  destruct (PlantTypeEnum_of_value _) as [ty |]; [| discriminate].
  intros [= <- <-]. unfold get_power_plants. simpl.
  split; [| split].
  - destruct (bool_decide (utility_id = "")).
    + apply list_elem_of_filter. split; [reflexivity | set_solver].
    + apply list_elem_of_filter. split; [reflexivity |].
      apply list_elem_of_filter. split; [reflexivity | set_solver].
  - apply list_elem_of_filter. split; [reflexivity | set_solver].
  - intros sid u q Hq.
    destruct u as [u |]; [destruct (bool_decide (u = "")) |];
      repeat (apply list_elem_of_filter in Hq; destruct Hq as [? Hq]); auto.
Qed.

(** X10: only the owner can bid.  When the new plant's id is not yet in
    the plant table, a bid for it by any other utility, or in any other
    session, fails with HTTP 404 and nothing is stored. *)
Theorem created_plant_owner_only new_id session_id plant utility_id db p db'
    bid_new_id now bid other_session other_utility :
  create_power_plant PLANT_TEMPLATES new_id session_id plant utility_id db
  = Returned p db' ->
  Forall (fun q => plant_id_of q <> new_id) (power_plants db) ->
  ybc_plant_id bid = new_id ->
  other_utility <> utility_id \/ other_session <> session_id ->
  submit_yearly_bid bid_new_id now other_session bid other_utility db'
  = Raised (HTTPException 404 "Plant not found or not owned by utility").
Proof.
  intros Hcreate Hfresh Hid Hother.
  destruct (create_power_plant_row _ _ _ _ _ _ _ Hcreate)
    as (Hpid & Hpu & Hps & Hplants & _).
  unfold submit_yearly_bid. rewrite Hplants.
  rewrite find_app_fresh; [reflexivity | |].
  - eapply Forall_impl; [exact Hfresh |]. intros q Hq.
    unfold plant_of_utility. rewrite Hid.
    now rewrite (bool_decide_eq_false_2 _ Hq).
  - unfold plant_of_utility. rewrite Hpu, Hps.
    destruct Hother as [Hne | Hne].
    + rewrite (bool_decide_eq_false_2 (utility_id = other_utility)) by congruence.
      now rewrite andb_false_r.
    + rewrite (bool_decide_eq_false_2 (session_id = other_session)) by congruence.
      now rewrite andb_false_r.
Qed.


End PlantLifecycle.




Lemma financials_after_create_witness :
  exists p db' f',
    create_power_plant Demo.template "p2" "game" (Demo.new_plant 2028) "acme"
      Cases.db = Returned p db'
    /\ get_user_financials "acme" "game" db' = Returned f' db'
    /\ fs_plant_count f' = 1%nat
    /\ (fs_budget f' + fs_total_capital_invested f' == 1000000000)%Q.
Proof.
  destruct (create_power_plant_returns Demo.template "p2" "game"
              (Demo.new_plant 2028) "acme" Cases.db natural_gas_cc eq_refl)
    as (p & db' & Hc & _).
  destruct (financials_after_create Demo.template "p2" "game"
              (Demo.new_plant 2028) "acme" Cases.db p db' _ Hc eq_refl)
    as (f' & Hf & Hn & _ & _ & Hsum).
  exists p, db', f'. split; [exact Hc |]. split; [exact Hf |].
  split; [exact Hn |]. rewrite Hsum. reflexivity.
Defined.

Lemma created_plant_listed_witness :
  exists p db',
    create_power_plant Demo.template "p2" "game" (Demo.new_plant 2028) "acme"
      Cases.db = Returned p db'
    /\ p ∈ get_power_plants "game" (Some "acme") db'.
Proof.
  destruct (create_power_plant_returns Demo.template "p2" "game"
              (Demo.new_plant 2028) "acme" Cases.db natural_gas_cc eq_refl)
    as (p & db' & Hc & _).
  exists p, db'. split; [exact Hc |].
  apply (created_plant_listed Demo.template "p2" "game" (Demo.new_plant 2028)
           "acme" Cases.db p db' Hc).
Defined.

Lemma created_plant_owner_only_witness :
  exists p db',
    create_power_plant Demo.template "p1" "game" (Demo.new_plant 2025) "acme"
      Cases.db = Returned p db'
    /\ submit_yearly_bid "b1" 1 "game" (Demo.bid 100 40) "rival" db'
       = Raised (HTTPException 404 "Plant not found or not owned by utility").
Proof.
  destruct (create_power_plant_returns Demo.template "p1" "game"
              (Demo.new_plant 2025) "acme" Cases.db natural_gas_cc eq_refl)
    as (p & db' & Hc & _).
  exists p, db'. split; [exact Hc |].
  apply (created_plant_owner_only Demo.template "p1" "game"
           (Demo.new_plant 2025) "acme" Cases.db p db' "b1" 1 (Demo.bid 100 40)
           "game" "rival"); [exact Hc | constructor | reflexivity |].
  left. discriminate.
Defined.


(** ** Bids: what a submission touches *)

Section UpdateFirstMore.

Context {A : Type} (P : A -> bool) (f : A -> A).

Lemma update_first_filter_other (K : A -> bool) l :
  (forall x, K (f x) = K x) ->
  (forall x, P x = true -> K x = false) ->
  List.filter K (update_first P f l) = List.filter K l.
Proof.
  intros HK Hdis. induction l as [| x l IH]; simpl; [reflexivity |].
  destruct (P x) eqn:HP; simpl.
  - now rewrite HK, (Hdis x HP).
  - destruct (K x); congruence.
Qed.

Lemma update_first_find l :
  (forall x, P (f x) = P x) ->
  find P (update_first P f l) = f <$> find P l.
Proof.
  intros HP. induction l as [| x l IH]; simpl; [reflexivity |].
  destruct (P x) eqn:Hx; simpl.
  - now rewrite HP, Hx.
  - now rewrite Hx.
Qed.

Lemma update_first_idem l :
  (forall x, P (f x) = P x) ->
  (forall x, f (f x) = f x) ->
  update_first P f (update_first P f l) = update_first P f l.
Proof.
  intros HP Hf. induction l as [| x l IH]; simpl; [reflexivity |].
  destruct (P x) eqn:Hx; simpl.
  - now rewrite HP, Hx, Hf.
  - now rewrite Hx, IH.
Qed.

Lemma update_first_snoc l x :
  find P l = None -> P x = true ->
  find P (l ++ [x]) = Some x
  /\ update_first P f (l ++ [x]) = l ++ [f x].
Proof.
  intros Hl Hx. induction l as [| y l IH]; simpl in *.
  - now rewrite Hx.
  - destruct (P y); [discriminate |].
    destruct (IH Hl) as [-> ->]. auto.
Qed.

End UpdateFirstMore.

Lemma submit_yearly_bid_returned new_id now session_id bid utility_id db b db' :
  submit_yearly_bid new_id now session_id bid utility_id db = Returned b db' ->
  exists p,
    find (plant_of_utility session_id utility_id (ybc_plant_id bid))
         (power_plants db) = Some p.
Proof.
  unfold submit_yearly_bid.
  destruct (find (plant_of_utility _ _ _) _) as [p |]; [eauto | discriminate].
Qed.

(** X12: a submission touches the bid of its own (session, plant, year)
    only.  Users, sessions and plants are as before, and for every other
    (session, plant, year) the bids in the table are exactly the ones that
    were there. *)
Theorem submit_leaves_other_bids new_id now session_id bid utility_id db b db' :
  submit_yearly_bid new_id now session_id bid utility_id db = Returned b db' ->
  users db' = users db
  /\ game_sessions db' = game_sessions db
  /\ power_plants db' = power_plants db
  /\ (forall sid pid y,
        ~ (sid = session_id /\ pid = ybc_plant_id bid /\ y = ybc_year bid) ->
        List.filter (bid_for sid pid y) (yearly_bids db')
        = List.filter (bid_for sid pid y) (yearly_bids db)).
Proof.
  unfold submit_yearly_bid.
  destruct (find (plant_of_utility _ _ _) _) as [p |]; [| discriminate].
  destruct (find (bid_for session_id _ _) (yearly_bids db)) as [old |] eqn:Hex;
    intros [= <- <-]; simpl; (split; [reflexivity |]);
    (split; [reflexivity |]); (split; [reflexivity |]); intros sid pid y Hne.
  - apply update_first_filter_other.
    + intros x. apply bid_for_overwrite.
    + intros x Hx. apply bid_for_true in Hx.
      destruct (bid_for sid pid y x) eqn:Hk; [| reflexivity].
      apply bid_for_true in Hk. exfalso. apply Hne.
      destruct Hx as (? & ? & ?), Hk as (? & ? & ?). repeat split; congruence.
  - rewrite List.filter_app. simpl.
    destruct (bid_for sid pid y _) eqn:Hk; [| apply app_nil_r].
    apply bid_for_true in Hk. simpl in Hk. exfalso. apply Hne.
    destruct Hk as (? & ? & ?). repeat split; congruence.
Qed.

Lemma submit_leaves_other_bids_witness :
  exists b db',
    submit_yearly_bid "b2" 2 "game" Demo.early_bid "acme"
      (Demo.db_with_bid bidding_open) = Returned b db'
    /\ List.filter (bid_for "game" "p1" 2025) (yearly_bids db')
       = [Demo.first_bid].
Proof.
  destruct (submit_yearly_bid_owned "b2" 2 "game" Demo.early_bid "acme"
              (Demo.db_with_bid bidding_open) Demo.plant eq_refl)
    as (b & bs & Hsub & _).
  exists b, (with_yearly_bids bs (Demo.db_with_bid bidding_open)).
  split; [exact Hsub |].
  destruct (submit_leaves_other_bids _ _ _ _ _ _ _ _ Hsub) as (_ & _ & _ & Hother).
  rewrite (Hother "game" "p1" 2025); [reflexivity |].
  intros (_ & _ & Hy). discriminate Hy.
Defined.

(** X13: the table grows by one row exactly when the (session, plant,
    year) had no bid.  The new row then carries the fresh id, the
    submitting utility and the time of submission; otherwise the row
    count is unchanged and the row keeps its id and its utility. *)
Theorem submit_row_count new_id now session_id bid utility_id db b db' :
  submit_yearly_bid new_id now session_id bid utility_id db = Returned b db' ->
  bid_timestamp b = now
  /\ match find (bid_for session_id (ybc_plant_id bid) (ybc_year bid))
                (yearly_bids db) with
     | None =>
         length (yearly_bids db') = S (length (yearly_bids db))
         /\ bid_id b = new_id /\ bid_utility_id b = utility_id
     | Some old =>
         length (yearly_bids db') = length (yearly_bids db)
         /\ bid_id b = bid_id old /\ bid_utility_id b = bid_utility_id old
     end.
Proof.
  unfold submit_yearly_bid.
  destruct (find (plant_of_utility _ _ _) _) as [p |]; [| discriminate].
  destruct (find (bid_for session_id _ _) (yearly_bids db)) as [old |] eqn:Hex;
    intros [= <- <-]; simpl; (split; [reflexivity |]).
  - rewrite update_first_length. auto.
  - rewrite length_app. simpl. split; [lia | auto].
Qed.

Lemma submit_row_count_witness :
  exists b db',
    submit_yearly_bid "b2" 2 "game" Demo.early_bid "acme"
      (Demo.db_with_bid bidding_open) = Returned b db'
    /\ length (yearly_bids db') = 2%nat /\ bid_id b = "b2".
Proof.
  destruct (submit_yearly_bid_owned "b2" 2 "game" Demo.early_bid "acme"
              (Demo.db_with_bid bidding_open) Demo.plant eq_refl)
    as (b & bs & Hsub & _).
  exists b, (with_yearly_bids bs (Demo.db_with_bid bidding_open)).
  split; [exact Hsub |].
  destruct (submit_row_count _ _ _ _ _ _ _ _ Hsub) as (_ & Hn).
  simpl in Hn. destruct Hn as (Hn & Hid & _). auto.
Defined.

(** X14: submitting the same bid again is a no-op.  After a submission
    has returned, submitting the same values at the same time (under any
    fresh id) returns the same row and leaves the store exactly as it
    is. *)
Theorem submit_twice_same new_id new_id' now session_id bid utility_id db b db' :
  submit_yearly_bid new_id now session_id bid utility_id db = Returned b db' ->
  submit_yearly_bid new_id' now session_id bid utility_id db' = Returned b db'.
Proof.
  unfold submit_yearly_bid.
  destruct (find (plant_of_utility _ _ _) (power_plants db)) as [p |] eqn:Hp;
    [| discriminate].
  destruct (find (bid_for session_id _ _) (yearly_bids db)) as [old |] eqn:Hex;
    intros [= <- <-]; simpl; rewrite Hp.
  - rewrite update_first_find by (intros; apply bid_for_overwrite).
    rewrite Hex. simpl.
    rewrite update_first_idem; [reflexivity | | reflexivity].
    intros; apply bid_for_overwrite.
  - match goal with
    | |- context [find ?P (?l ++ [?x])] =>
        destruct (update_first_snoc P (overwrite_bid bid now) l x Hex)
          as [Hfind Hupd]
    end.
    { apply bid_for_true. simpl. auto. }
    rewrite Hfind, Hupd. reflexivity.
Qed.

Lemma submit_twice_same_witness :
  exists b db',
    submit_yearly_bid "b1" 1 "game" (Demo.bid 100 40) "acme"
      (Demo.db 2025 bidding_open) = Returned b db'
    /\ submit_yearly_bid "b2" 1 "game" (Demo.bid 100 40) "acme" db'
       = Returned b db'.
Proof.
  destruct (submit_yearly_bid_owned "b1" 1 "game" (Demo.bid 100 40) "acme"
              (Demo.db 2025 bidding_open) Demo.plant eq_refl)
    as (b & bs & Hsub & _).
  exists b, (with_yearly_bids bs (Demo.db 2025 bidding_open)).
  split; [exact Hsub |].
  exact (submit_twice_same "b1" "b2" _ _ _ _ _ _ _ Hsub).
Defined.

(** X15: a stored bid is listed.  After a submission has returned, the
    row is among [get_yearly_bids] of its session, for its year and for
    all years; and every row the listing returns belongs to the session
    asked for. *)
Theorem submitted_bid_listed new_id now session_id bid utility_id db b db' :
  submit_yearly_bid new_id now session_id bid utility_id db = Returned b db' ->
  b ∈ get_yearly_bids session_id (Some (ybc_year bid)) None db'
  /\ b ∈ get_yearly_bids session_id None None db'
  /\ (forall sid y u x, x ∈ get_yearly_bids sid y u db' ->
        bid_game_session_id x = sid).
Proof.
  intros Hsub.
  destruct (submit_yearly_bid_returned _ _ _ _ _ _ _ _ Hsub) as [p Hp].
  destruct (submit_yearly_bid_owned new_id now _ _ _ _ _ Hp)
    as (b0 & bs & Hsub' & Hin & _ & Hy & Hs & _).
  rewrite Hsub in Hsub'. injection Hsub' as <- ->.
  apply list_elem_of_In in Hin.
  unfold get_yearly_bids. simpl. split; [| split].
  - destruct (ybc_year bid =? 0).
    + apply list_elem_of_filter. auto.
    + apply list_elem_of_filter. split; [exact Hy |].
      apply list_elem_of_filter. auto.
  - apply list_elem_of_filter. auto.
  - intros sid y u x Hx.
    destruct u as [u |]; [destruct (bool_decide (u = "")) |];
      (destruct y as [y |]; [destruct (y =? 0) |]);
      repeat (apply list_elem_of_filter in Hx; destruct Hx as [? Hx]); auto.
Qed.

Lemma submitted_bid_listed_witness :
  exists b db',
    submit_yearly_bid "b1" 1 "game" (Demo.bid 100 40) "acme"
      (Demo.db 2025 bidding_open) = Returned b db'
    /\ b ∈ get_yearly_bids "game" (Some 2025) None db'.
Proof.
  destruct (submit_yearly_bid_owned "b1" 1 "game" (Demo.bid 100 40) "acme"
              (Demo.db 2025 bidding_open) Demo.plant eq_refl)
    as (b & bs & Hsub & _).
  exists b, (with_yearly_bids bs (Demo.db 2025 bidding_open)).
  split; [exact Hsub |].
  apply (submitted_bid_listed _ _ _ _ _ _ _ _ Hsub).
Defined.

(** ** Fuel prices and plant economics *)







(** X18: for a year the schedule knows, with a non-empty price table, the
    fuel-price endpoint and the plant-economics endpoint use the same
    table, the one stored, without growth. *)
Theorem known_year_prices_agree marginal_cost session_id plant_id year db s
    pl table :
  game_sessions db !! session_id = Some s ->
  fuel_prices s !! year = Some table ->
  table <> ∅ ->
  find (fun p => bool_decide (plant_id_of p = plant_id)
               && bool_decide (plant_game_session_id p = session_id))
       (power_plants db) = Some pl ->
  exists r e,
    get_fuel_prices session_id year db = Returned r db
    /\ get_plant_economics marginal_cost session_id plant_id year db
       = Returned e db
    /\ fp_fuel_prices r = table
    /\ pe_year_fuel_prices e = table.
Proof.
  intros Hs Hyear Hne Hpl.
  unfold get_fuel_prices, get_plant_economics, economics_fuel_prices.
  rewrite Hs, Hpl, Hyear. simpl.
  destruct (size table =? 0)%nat eqn:Hsz.
  - apply Nat.eqb_eq, map_size_empty_iff in Hsz. contradiction.
  - eexists _, _. repeat split.
Qed.

Lemma known_year_prices_agree_witness :
  exists r e,
    get_fuel_prices "game" 2026 Cases.db_2026 = Returned r Cases.db_2026
    /\ get_plant_economics (fun _ _ _ => 0%Q) "game" "p1" 2026 Cases.db_2026
       = Returned e Cases.db_2026
    /\ fp_fuel_prices r = pe_year_fuel_prices e.
Proof.
  destruct (known_year_prices_agree (fun _ _ _ => 0%Q) "game" "p1" 2026
              Cases.db_2026 Cases.session Demo.plant
              {[ "natural_gas" := 3.10%Q; "coal" := 2.05%Q ]})
    as (r & e & Hr & He & Hrt & Het); [reflexivity | reflexivity | | reflexivity |].
  - intros H. apply (f_equal (fun m => m !! "coal")) in H. vm_compute in H.
    discriminate.
  - exists r, e. split; [exact Hr |]. split; [exact He |]. congruence.
Defined.

(** X19: plant economics never extrapolates.  For any two years absent
    from the schedule it uses the same price table (that of 2025, or an
    empty one when 2025 is absent too), so marginal cost, variable and
    total cost and the fuel cost it reports are the same for both
    years. *)
Theorem economics_same_for_absent_years marginal_cost session_id plant_id
    year1 year2 db s pl :
  game_sessions db !! session_id = Some s ->
  find (fun p => bool_decide (plant_id_of p = plant_id)
               && bool_decide (plant_game_session_id p = session_id))
       (power_plants db) = Some pl ->
  fuel_prices s !! year1 = None ->
  fuel_prices s !! year2 = None ->
  exists e1 e2,
    get_plant_economics marginal_cost session_id plant_id year1 db
    = Returned e1 db
    /\ get_plant_economics marginal_cost session_id plant_id year2 db
       = Returned e2 db
    /\ pe_year_fuel_prices e1 = default ∅ (fuel_prices s !! 2025)
    /\ pe_year_fuel_prices e2 = pe_year_fuel_prices e1
    /\ pe_marginal_cost_per_mwh e2 = pe_marginal_cost_per_mwh e1
    /\ pe_annual_variable_costs e2 = pe_annual_variable_costs e1
    /\ pe_annual_total_costs e2 = pe_annual_total_costs e1
    /\ pe_fuel_costs e2 = pe_fuel_costs e1.
Proof.
  intros Hs Hpl H1 H2.
  unfold get_plant_economics, economics_fuel_prices.
  rewrite Hs, Hpl, H1, H2. simpl.
  eexists _, _. repeat split.
Qed.

Lemma economics_same_for_absent_years_witness :
  exists e1 e2,
    get_plant_economics (fun p prices _ =>
                           variable_om_per_mwh p
                           + 6.4 * default 0 (prices !! "natural_gas"))%Q
      "game" "p1" 2030 Cases.db_2026 = Returned e1 Cases.db_2026
    /\ get_plant_economics (fun p prices _ =>
                              variable_om_per_mwh p
                              + 6.4 * default 0 (prices !! "natural_gas"))%Q
         "game" "p1" 2040 Cases.db_2026 = Returned e2 Cases.db_2026
    /\ pe_annual_total_costs e2 = pe_annual_total_costs e1.
Proof.
  destruct (economics_same_for_absent_years
              (fun p prices _ =>
                 variable_om_per_mwh p
                 + 6.4 * default 0 (prices !! "natural_gas"))%Q
              "game" "p1" 2030 2040 Cases.db_2026 Cases.session Demo.plant)
    as (e1 & e2 & H1 & H2 & _ & _ & _ & _ & Ht & _);
    [reflexivity | reflexivity | reflexivity | reflexivity |].
  exists e1, e2. auto.
Defined.

(** ** Dashboard *)

Lemma size_list_to_set_le (l : list string) :
  (size (list_to_set l : gset string) <= length l)%nat.
Proof.
  induction l as [| x l IH].
  - rewrite list_to_set_nil, size_empty. simpl. lia.
  - rewrite list_to_set_cons, size_union_alt, size_singleton. simpl.
    pose proof (subseteq_size (list_to_set l ∖ {[x]} : gset string)
                  (list_to_set l) (subseteq_difference_l _ _ _ (reflexivity _))).
    lia.
Qed.

(** X20: the dashboard's statistics are consistent and the store is only
    read.  Operating plants and participating utilities never outnumber
    the session's plants, the session's plants never outnumber the plant
    table, years remaining is end year minus current year, and the
    capacity margin is 0 (no division) when the peak demand is not
    positive. *)
Theorem dashboard_statistics session_id db d db' :
  get_game_dashboard session_id db = Returned d db' ->
  db' = db
  /\ (dash_operating_plants d <= dash_total_plants d)%nat
  /\ (dash_total_utilities d <= dash_total_plants d)%nat
  /\ (dash_total_plants d <= length (power_plants db))%nat
  /\ dash_years_remaining d = dash_end_year d - dash_current_year d
  /\ ((cd_peak (dash_current_demand_mw d) <= 0)%Q ->
      dash_capacity_margin d = 0%Q).
Proof.
  unfold get_game_dashboard.
  destruct (game_sessions db !! session_id) as [s |]; [| discriminate].
  destruct (float_pow _ _) as [g |]; [| discriminate].
  intros [= <- <-]. simpl. split; [reflexivity |].
  split; [apply length_filter |]. split.
  - etransitivity; [apply size_list_to_set_le |]. now rewrite length_fmap.
  - split; [apply length_filter |]. split; [reflexivity |].
    intros Hle. destruct (Qlt_le_dec 0 _) as [Hlt | _]; [| reflexivity].
    exfalso. apply (Qlt_irrefl 0). eapply Qlt_le_trans; eassumption.
Qed.

Lemma dashboard_statistics_witness :
  exists d,
    get_game_dashboard "game" (Demo.db 2027 bidding_open)
    = Returned d (Demo.db 2027 bidding_open)
    /\ (dash_operating_plants d <= dash_total_plants d)%nat
    /\ dash_years_remaining d = 8.
Proof.
  destruct (get_game_dashboard "game" (Demo.db 2027 bidding_open))
    as [d db' | e] eqn:Hd; [| vm_compute in Hd; discriminate].
  destruct (dashboard_statistics _ _ _ _ Hd) as (-> & Hop & _ & _ & Hy & _).
  exists d. split; [reflexivity |]. split; [exact Hop |].
  rewrite Hy. unfold get_game_dashboard in Hd. simpl in Hd.
  injection Hd as <-. reflexivity.
Defined.



(** ** Users *)

Lemma add_user_Some u us us' :
  add_user u us = Some us' <->
  us !! user_id u = None
  /\ (forall k v, us !! k = Some v -> username v <> username u)
  /\ us' = <[user_id u := u]> us.
Proof.
  unfold add_user. destruct (us !! user_id u) eqn:Hid.
  - split; [discriminate | intros (? & _); discriminate].
  - destruct (existsb _ _) eqn:Hex.
    + split; [discriminate |]. intros (_ & Hfree & _). exfalso.
      apply existsb_exists in Hex. destruct Hex as ([k v] & Hin & Hname).
      apply bool_decide_eq_true in Hname.
      apply list_elem_of_In, elem_of_map_to_list in Hin. exact (Hfree k v Hin Hname).
    + split.
      * intros [= <-]. repeat split. intros k v Hkv Hname.
        assert (Htrue : existsb
                  (fun kv : string * DBUser =>
                     bool_decide (username kv.2 = username u))
                  (map_to_list us) = true); [| congruence].
        apply existsb_exists. exists (k, v). split.
        -- apply list_elem_of_In, elem_of_map_to_list, Hkv.
        -- now apply bool_decide_eq_true.
      * intros (_ & _ & ->). reflexivity.
Qed.

(** X22: [create_user] keeps ids and usernames unique.  When it returns,
    the user can be read back under its id with the default finances
    (budget and equity 1,000,000,000, debt 0), every user that existed is
    unchanged and has another username, and if usernames were unique
    before they still are. *)
Theorem create_user_unique new_id user db u db' :
  create_user new_id user db = Flushed (Returned u db') ->
  get_user new_id db' = Returned u db'
  /\ (budget u == 1000000000 /\ debt u == 0 /\ equity u == 1000000000)%Q
  /\ users db !! new_id = None
  /\ (forall id v, users db !! id = Some v ->
        users db' !! id = Some v /\ username v <> username u)
  /\ ((forall i j ui uj, users db !! i = Some ui -> users db !! j = Some uj ->
         username ui = username uj -> i = j) ->
      forall i j ui uj, users db' !! i = Some ui -> users db' !! j = Some uj ->
        username ui = username uj -> i = j).
Proof.
  unfold create_user.
  destruct (UserTypeEnum_of_value _) as [ty |]; [| discriminate].
  destruct (add_user _ _) as [us |] eqn:Hadd; [| discriminate].
  intros [= <- <-]. apply add_user_Some in Hadd. simpl in Hadd.
  destruct Hadd as (Hfresh & Hname & ->). unfold get_user. simpl.
  rewrite lookup_insert_eq.
  split; [reflexivity |]. split; [repeat split; reflexivity |].
  split; [exact Hfresh |]. split.
  - intros id v Hv. split; [| exact (Hname id v Hv)].
    rewrite lookup_insert_ne; [exact Hv |]. congruence.
  - intros Huniq i j ui uj Hi Hj Heq.
    apply lookup_insert_Some in Hi, Hj.
    destruct Hi as [[<- <-] | [Hni Hi]], Hj as [[<- <-] | [Hnj Hj]].
    + reflexivity.
    + exfalso. apply (Hname j uj Hj). symmetry. exact Heq.
    + exfalso. apply (Hname i ui Hi). exact Heq.
    + eapply Huniq; eauto.
Qed.

Lemma create_user_unique_witness :
  exists u db',
    create_user "u9" {| uc_username := "newco"; uc_user_type := "utility" |}
      Cases.db = Flushed (Returned u db')
    /\ get_user "u9" db' = Returned u db'
    /\ users db' !! "acme" = Some Demo.acme.
Proof.
  destruct (create_user "u9" {| uc_username := "newco"; uc_user_type := "utility" |}
              Cases.db) as [[u db' | e] |] eqn:Hc;
    [| vm_compute in Hc; discriminate | vm_compute in Hc; discriminate].
  destruct (create_user_unique _ _ _ _ _ Hc) as (Hget & _ & _ & Hold & _).
  exists u, db'. split; [reflexivity |]. split; [exact Hget |].
  apply (Hold "acme" Demo.acme). reflexivity.
Defined.

(** X23: how [create_user] fails.  A user type other than "operator" and
    "utility" raises [ValueError], which no handler turns into an HTTP
    error; a username that an existing user has makes the commit raise
    [IntegrityError].  Nothing is stored in either case. *)
Theorem create_user_failures new_id user db :
  ((uc_user_type user <> "operator" /\ uc_user_type user <> "utility") ->
   create_user new_id user db = Flushed (Raised ValueError))
  /\ (forall id v,
        (uc_user_type user = "operator" \/ uc_user_type user = "utility") ->
        users db !! id = Some v ->
        username v = uc_username user ->
        create_user new_id user db = IntegrityError).
Proof.
  unfold create_user, UserTypeEnum_of_value. split.
  - intros [Ho Hu]. now rewrite !decide_False.
  - intros id v Hty Hv Hname.
    assert (Hsome : exists ty,
               (if decide (uc_user_type user = "operator") then Some operator
                else if decide (uc_user_type user = "utility") then Some utility
                else None) = Some ty).
    { destruct Hty as [-> | ->]; eexists; reflexivity. }
    destruct Hsome as [ty ->].
    destruct (add_user _ _) as [us |] eqn:Hadd; [| reflexivity].
    apply add_user_Some in Hadd. destruct Hadd as (_ & Hfree & _).
    exfalso. exact (Hfree id v Hv Hname).
Qed.

Lemma create_user_failures_witness :
  create_user "u9" {| uc_username := "newco"; uc_user_type := "regulator" |}
    Cases.db = Flushed (Raised ValueError)
  /\ create_user "u9" {| uc_username := "acme"; uc_user_type := "utility" |}
       Cases.db = IntegrityError.
Proof.
  split.
  - apply (create_user_failures "u9"
             {| uc_username := "newco"; uc_user_type := "regulator" |} Cases.db).
    split; discriminate.
  - apply (create_user_failures "u9"
             {| uc_username := "acme"; uc_user_type := "utility" |} Cases.db)
      with (id := "acme") (v := Demo.acme); [now right | reflexivity | reflexivity].
Defined.

(** ** Sample data *)

Lemma add_user_keeps u us us' k :
  add_user u us = Some us' -> is_Some (us !! k) -> is_Some (us' !! k).
Proof.
  intros Hadd Hk. apply add_user_Some in Hadd. destruct Hadd as (Hfresh & _ & ->).
  rewrite lookup_insert_ne; [exact Hk |].
  intros Heq. rewrite Heq in Hfresh. rewrite Hfresh in Hk.
  destruct Hk as [x Hx]. discriminate Hx.
Qed.

Lemma add_sample_users_keep (l : list (string * Q)) acc us k :
  foldl (fun acc '(id, funds) =>
           us ← acc; add_user (sample_user id utility id funds) us) acc l
  = Some us ->
  exists us0, acc = Some us0 /\ (is_Some (us0 !! k) -> is_Some (us !! k)).
Proof.
  revert acc. induction l as [| [id funds] l IH]; intros acc; simpl.
  - intros ->. eauto.
  - intros Hf. destruct (IH _ Hf) as (us1 & Hstep & Hkeep).
    destruct acc as [us0 |]; [| discriminate]. simpl in Hstep.
    exists us0. split; [reflexivity |]. intros Hk.
    apply Hkeep. eapply add_user_keeps; eauto.
Qed.

Lemma add_sample_users_conflict (l : list (string * Q)) acc :
  (acc = None
   \/ exists us0 id funds,
        acc = Some us0 /\ (id, funds) ∈ l /\ is_Some (us0 !! id)) ->
  foldl (fun acc '(id, funds) =>
           us ← acc; add_user (sample_user id utility id funds) us) acc l
  = None.
Proof.
  revert acc. induction l as [| [i f] l IH]; intros acc Hacc; simpl.
  - destruct Hacc as [-> | (us0 & id & funds & _ & Hin & _)]; [reflexivity |].
    now apply elem_of_nil in Hin.
  - apply IH. destruct Hacc as [-> | (us0 & id & funds & -> & Hin & Hk)];
      [now left |]. simpl.
    destruct (add_user (sample_user i utility i f) us0) as [us1 |] eqn:Hadd;
      [| now left].
    right. apply elem_of_cons in Hin. destruct Hin as [[= -> ->] | Hin].
    + apply add_user_Some in Hadd. destruct Hadd as (Hfresh & _).
      simpl in Hfresh. rewrite Hfresh in Hk.
      destruct Hk as [x Hx]. discriminate Hx.
    + exists us1, id, funds. split; [reflexivity |]. split; [exact Hin |].
      eapply add_user_keeps; eauto.
Qed.

Section SampleData.

Variable PLANT_TEMPLATES : PlantTypeEnum -> PlantTemplate.
Variable DEFAULT_FUEL_PRICES : gmap Z (gmap string Q).
Variable profile_defaults : DemandData.

(** X24: [create_sample_data] runs once.  After a call that reported
    success the operator row exists, so a further call returns the short
    answer (no capacity, period or technologies) and leaves the store as
    it is. *)
Theorem create_sample_data_once db info db' :
  create_sample_data PLANT_TEMPLATES DEFAULT_FUEL_PRICES profile_defaults db
  = (Some info, db') ->
  exists info',
    create_sample_data PLANT_TEMPLATES DEFAULT_FUEL_PRICES profile_defaults db'
    = (Some info', db')
    /\ sd_total_capacity_mw info' = None
    /\ sd_simulation_period info' = None
    /\ sd_game_session_id info' = sd_game_session_id info.
Proof.
  intros Hrun.
  assert (Hop : is_Some (users db' !! "operator_1")
                /\ sd_game_session_id info = "sample_game_1").
  { unfold create_sample_data in Hrun.
    destruct (users db !! "operator_1") as [op |] eqn:Hop0.
    - injection Hrun as <- <-. rewrite Hop0. eauto.
    - match type of Hrun with
      | context [foldl ?F ?acc ?l] =>
          destruct (foldl F acc l) as [us |] eqn:Hus; [| discriminate]
      end.
      destruct (add_sample_users_keep _ _ _ "operator_1" Hus)
        as (us0 & Hadd & Hkeep).
      apply add_user_Some in Hadd. destruct Hadd as (_ & _ & ->).
      cbn [game_sessions] in Hrun.
      destruct (game_sessions db !! "sample_game_1"); [discriminate |].
      match type of Hrun with
      | context [foldl ?F ?acc ?l] =>
          destruct (foldl F acc l) as [ps |]; [| discriminate]
      end.
      injection Hrun as <- <-. split; [| reflexivity].
      unfold update_utility_finances. cbn [users with_game_sessions].
      rewrite lookup_fmap. apply fmap_is_Some, Hkeep.
      simpl. rewrite lookup_insert_eq. eauto. }
  destruct Hop as [[op Hop] Hid].
  unfold create_sample_data. rewrite Hop.
  eexists. split; [reflexivity |]. simpl. auto.
Qed.

(** X25: [create_sample_data] fails as a whole on a taken utility id.
    When the operator row is missing but one of the rows utility_1,
    utility_2, utility_3 exists, the first commit raises, everything is
    rolled back, and the function returns [None] with the store
    unchanged. *)
Theorem create_sample_data_conflict db id :
  users db !! "operator_1" = None ->
  id ∈ ["utility_1"; "utility_2"; "utility_3"] ->
  is_Some (users db !! id) ->
  create_sample_data PLANT_TEMPLATES DEFAULT_FUEL_PRICES profile_defaults db
  = (None, db).
Proof.
  intros Hop Hid Hk. unfold create_sample_data. rewrite Hop.
  rewrite add_sample_users_conflict; [reflexivity |].
  destruct (add_user _ (users db)) as [us0 |] eqn:Hadd; [| now left].
  right.
  assert (Hfunds : exists funds,
             (id, funds) ∈ zip ["utility_1"; "utility_2"; "utility_3"]
                               utility_budgets).
  { simpl. rewrite !elem_of_cons in Hid.
    destruct Hid as [-> | [-> | [-> | Hid]]];
      [eexists; rewrite !elem_of_cons; eauto .. | now apply elem_of_nil in Hid]. }
  destruct Hfunds as [funds Hin].
  exists us0, id, funds. split; [reflexivity |]. split; [exact Hin |].
  eapply add_user_keeps; eauto.
Qed.

End SampleData.

Lemma create_sample_data_once_witness :
  exists info db' info',
    create_sample_data Demo.template Demo.schedule Demo.demand Demo.empty_db
    = (Some info, db')
    /\ create_sample_data Demo.template Demo.schedule Demo.demand db'
       = (Some info', db')
    /\ sd_total_capacity_mw info' = None.
Proof.
  destruct (create_sample_data Demo.template Demo.schedule Demo.demand
              Demo.empty_db) as [[info |] db'] eqn:Hrun;
    [| vm_compute in Hrun; discriminate].
  destruct (create_sample_data_once _ _ _ _ _ _ Hrun) as (info' & Hagain & Hcap & _).
  exists info, db', info'. auto.
Defined.

Lemma create_sample_data_conflict_witness :
  create_sample_data Demo.template Demo.schedule Demo.demand
    {| users := {[ "utility_2" := Cases.rival ]}; game_sessions := ∅;
       power_plants := []; yearly_bids := [] |}
  = (None,
     {| users := {[ "utility_2" := Cases.rival ]}; game_sessions := ∅;
        power_plants := []; yearly_bids := [] |}).
Proof.
  apply (create_sample_data_conflict Demo.template Demo.schedule Demo.demand
           {| users := {[ "utility_2" := Cases.rival ]}; game_sessions := ∅;
              power_plants := []; yearly_bids := [] |} "utility_2").
  - reflexivity.
  - set_solver.
  - now exists Cases.rival.
Defined.

(** X26: the finance update of the sample data overwrites debts.  A
    utility without a plant in the sample game keeps its budget and
    equity but its debt becomes 0, whatever it was; an operator's row is
    not touched. *)
Theorem update_utility_finances_resets_debt db id u :
  users db !! id = Some u ->
  (user_type u = operator ->
   users (update_utility_finances db) !! id = Some u)
  /\ (user_type u = utility ->
      Forall (fun p => ~ (plant_utility_id p = user_id u
                          /\ plant_game_session_id p = "sample_game_1"))
             (power_plants db) ->
      exists u',
        users (update_utility_finances db) !! id = Some u'
        /\ (debt u' == 0 /\ budget u' == budget u /\ equity u' == equity u)%Q).
Proof.
  intros Hu. split.
  - intros Hty. unfold update_utility_finances; simpl.
    rewrite lookup_fmap, Hu. simpl. now rewrite Hty.
  - intros Hty Hnone.
    rewrite (update_utility_finances_utility db id u Hu Hty).
    eexists. split; [reflexivity |].
    assert (Hzero : total_invested (user_id u) (power_plants db) = 0%Q).
    { unfold total_invested.
      induction Hnone as [| p l Hp _ IH]; [reflexivity |].
      now rewrite filter_cons_False. }
    rewrite Hzero. unfold finance_existing. simpl. repeat split; ring.
Qed.

Lemma update_utility_finances_resets_debt_witness :
  exists u',
    users (update_utility_finances
             {| users := {[ "indebted" :=
                              {| user_id := "indebted"; username := "indebted";
                                 user_type := utility; budget := 500;
                                 debt := 700; equity := 300 |} ]};
                game_sessions := ∅; power_plants := [Demo.plant];
                yearly_bids := [] |}) !! "indebted" = Some u'
    /\ (debt u' == 0)%Q.
Proof.
  destruct (update_utility_finances_resets_debt
              {| users := {[ "indebted" :=
                               {| user_id := "indebted"; username := "indebted";
                                  user_type := utility; budget := 500;
                                  debt := 700; equity := 300 |} ]};
                 game_sessions := ∅; power_plants := [Demo.plant];
                 yearly_bids := [] |} "indebted"
              {| user_id := "indebted"; username := "indebted";
                 user_type := utility; budget := 500;
                 debt := 700; equity := 300 |}) as [_ Hutil]; [reflexivity |].
  destruct Hutil as (u' & Hu' & Hd & _); [reflexivity | |].
  - constructor; [| constructor]. simpl. intros [H _]. discriminate H.
  - exists u'. auto.
Defined.

(** ** Scenarios *)

(** X27: the scenario endpoints agree.  For every name,
    [create_scenario_game_endpoint] returns exactly when [list_scenarios]
    lists the name, which for [GAME_SCENARIOS] is the case for
    "simple_tutorial" and "realistic_market" only; the game data then
    carries the scenario's generators, as many as the listing counts, and
    otherwise the endpoint raises HTTP 400 "Unknown scenario: <name>". *)
Theorem scenario_endpoints_agree name operator_id :
  match create_scenario_game_endpoint GAME_SCENARIOS name operator_id with
  | inr response =>
      (name = "simple_tutorial" \/ name = "realistic_market")
      /\ gd_scenario_type (sgr_game_data response) = name
      /\ gd_operator_id (sgr_game_data response) = operator_id
      /\ exists summary,
           list_scenarios GAME_SCENARIOS !! name = Some summary
           /\ ss_generator_count summary
              = length (gd_suggested_generators (sgr_game_data response))
           /\ ss_name summary = gd_name (sgr_game_data response)
  | inl e =>
      name <> "simple_tutorial" /\ name <> "realistic_market"
      /\ e = HTTPException 400 ("Unknown scenario: " +:+ name)
      /\ list_scenarios GAME_SCENARIOS !! name = None
  end.
Proof.
  unfold create_scenario_game_endpoint, create_scenario_game, list_scenarios.
  rewrite lookup_fmap.
  destruct (GAME_SCENARIOS !! name) as [sc |] eqn:Hsc; simpl.
  - split.
    + unfold GAME_SCENARIOS in Hsc. apply lookup_insert_Some in Hsc.
      destruct Hsc as [[<- _] | [_ Hsc]]; [now left |].
      apply lookup_singleton_Some in Hsc. destruct Hsc as [<- _]. now right.
    + split; [reflexivity |]. split; [reflexivity |]. eauto.
  - unfold GAME_SCENARIOS in Hsc. apply lookup_insert_None in Hsc.
    destruct Hsc as [Hsc Hne1]. apply lookup_singleton_None in Hsc.
    repeat split; congruence.
Qed.

(** The tutorial scenario is listed as simple, with three generators. *)
Example list_scenarios_tutorial :
  exists summary,
    list_scenarios GAME_SCENARIOS !! "simple_tutorial" = Some summary
    /\ ss_generator_count summary = 3%nat
    /\ ss_complexity summary = "Simple".
Proof. eexists. split; [vm_compute; reflexivity |]. split; reflexivity. Qed.

(** ** Market results *)

Lemma LoadPeriodEnum_of_value_None v :
  v <> "off_peak" -> v <> "shoulder" -> v <> "peak" ->
  LoadPeriodEnum_of_value v = None.
Proof.
  intros H1 H2 H3. unfold LoadPeriodEnum_of_value. now rewrite !decide_False.
Qed.


